(** * draft-js: the cut handler and the default block renderer

    A shallow embedding of [editOnCut.js] and [DraftEditorBlock.react.js].
    The handler is effectful (it calls methods of the editor component and
    schedules a deferred callback): it is written in ExtLib's state monad
    over the state of the editor component, together with a trace of the
    calls it makes.  The block renderer is a pure function of its props. *)

From Stdlib Require Import ZArith List String Bool Lia.
From ExtLib Require Import Structures.Monad Structures.MonadState.
From ExtLib Require Import Data.Monads.StateMonad.
Import ListNotations.
Import MonadNotation.
Local Open Scope monad_scope.
Local Open Scope string_scope.
Local Open Scope Z_scope.

Set Implicit Arguments.

(** ** Values of JavaScript the two files exchange *)

(** A DOM node is known by a handle; [window] is node 0. *)
Definition Node := nat.
Definition window : Node := 0%nat.

(** An object compared with [===] / [!==]: the comparison is on the
    reference, never on the contents. *)
Record Ref (A : Type) : Type := mkRef { addr : nat; obj : A }.

Definition same_ref {A} (r1 r2 : Ref A) : bool := Nat.eqb (addr r1) (addr r2).

(** JavaScript [s.slice(start, end)] on a string: a negative index counts
    from the end, indices are clamped to the length, and an empty string
    comes back when the bounds cross. *)
Definition slice_index (len i : Z) : Z :=
  if i <? 0 then Z.max (len + i) 0 else Z.min i len.

Definition slice (s : string) (start end_ : Z) : string :=
  let len := Z.of_nat (String.length s) in
  let from := slice_index len start in
  let to := slice_index len end_ in
  substring (Z.to_nat from) (Z.to_nat (to - from)) s.

(** ** The immutable model *)

Module SelectionState.

(** Modelled from the spec: the SelectionState class is not among the
    sources.  Part 3 of the spec gives anchor and focus, the focus flag, and start
    and end as anchor and focus ordered by document position;
    [isBackward] records that order (the focus lies before the anchor). *)
Record t : Type := make {
  anchorKey : string;
  anchorOffset : Z;
  focusKey : string;
  focusOffset : Z;
  isBackward : bool;
  hasFocus : bool
}.

Definition getAnchorKey (s : t) : string := anchorKey s.
Definition getFocusKey (s : t) : string := focusKey s.
Definition getHasFocus (s : t) : bool := hasFocus s.

Definition isCollapsed (s : t) : bool :=
  String.eqb (anchorKey s) (focusKey s) && (anchorOffset s =? focusOffset s).

Definition getStartKey (s : t) : string :=
  if isBackward s then focusKey s else anchorKey s.
Definition getStartOffset (s : t) : Z :=
  if isBackward s then focusOffset s else anchorOffset s.
Definition getEndKey (s : t) : string :=
  if isBackward s then anchorKey s else focusKey s.
Definition getEndOffset (s : t) : Z :=
  if isBackward s then anchorOffset s else focusOffset s.

End SelectionState.

Module ContentBlock.

(** Modelled from the spec: the ContentBlock class is not among the
    sources.  Part 3 of the spec gives a key, a type, the text, and the style and
    entity of the text; they are kept per character, one entry of
    [characterList] for each character of [text]. *)
Record CharacterMetadata : Type := mkChar {
  style : list string;
  entity : option string
}.

Record t : Type := make {
  key : string;
  type : string;
  text : string;
  characterList : list CharacterMetadata
}.

Definition getKey (b : t) : string := key b.
Definition getType (b : t) : string := type b.
Definition getText (b : t) : string := text b.

Definition characterAt (b : t) (offset : Z) : option CharacterMetadata :=
  if offset <? 0 then None else nth_error (characterList b) (Z.to_nat offset).

Definition getInlineStyleAt (b : t) (offset : Z) : list string :=
  match characterAt b offset with
  | Some c => style c
  | None => []
  end.

Definition getEntityAt (b : t) (offset : Z) : option string :=
  match characterAt b offset with
  | Some c => entity c
  | None => None
  end.

End ContentBlock.

Module ContentState.

(** Modelled from the spec: the ContentState class is not among the
    sources.  Part 3 of the spec gives an ordered mapping from block key to block
    and the selection attached by the mutation that made the content. *)
Record t : Type := make {
  blockMap : list (string * ContentBlock.t);
  selectionBefore : SelectionState.t;
  selectionAfter : SelectionState.t
}.

Definition getSelectionAfter (c : t) : SelectionState.t := selectionAfter c.

Fixpoint lookup (m : list (string * ContentBlock.t)) (k : string)
  : option ContentBlock.t :=
  match m with
  | [] => None
  | (k', b) :: rest => if String.eqb k' k then Some b else lookup rest k
  end.

Definition getBlockForKey (c : t) (k : string) : option ContentBlock.t :=
  lookup (blockMap c) k.

(** The block that comes just before the first entry with key [k];
    nothing when [k] is the first key or is not a key of the map. *)
Fixpoint before (prev : option ContentBlock.t)
  (m : list (string * ContentBlock.t)) (k : string) : option ContentBlock.t :=
  match m with
  | [] => None
  | (k', b) :: rest => if String.eqb k' k then prev else before (Some b) rest k
  end.

Definition getBlockBefore (c : t) (k : string) : option ContentBlock.t :=
  before None (blockMap c) k.

End ContentState.

Module EditorState.

(** Modelled from the spec: the EditorState class is not among the
    sources.  Part 3 of the spec gives the content, the selection, the two stacks
    and the force-selection flag. *)
Record t : Type := make {
  currentContent : ContentState.t;
  selection : SelectionState.t;
  undoStack : list ContentState.t;
  redoStack : list ContentState.t;
  mustForceSelection : bool
}.

Definition getCurrentContent (e : t) : ContentState.t := currentContent e.
Definition getSelection (e : t) : SelectionState.t := selection e.

End EditorState.

(** A clipboard fragment is an ordered sequence of blocks. *)
Definition Fragment := list (string * ContentBlock.t).

(** The operations of the mutation pipeline that [editOnCut.js] imports
    ([DraftModifier.removeRange], [EditorState.push],
    [EditorState.forceSelection], [getFragmentFromSelection]).  Their code
    is elsewhere; the handler is written against this interface. *)
Class MutationPipeline : Type := {
  removeRange :
    ContentState.t -> SelectionState.t -> string -> ContentState.t;
  push : EditorState.t -> ContentState.t -> string -> EditorState.t;
  forceSelection : EditorState.t -> SelectionState.t -> EditorState.t;
  getFragmentFromSelection : EditorState.t -> Fragment
}.

(** ** editOnCut.js *)

Module EditOnCut.

(** The callback handed to [setTimeout], with the variables it closes
    over: the scroll position and the editor state read when the event
    fired. *)
Inductive Timer : Type :=
| CutRecovery (x y : Z) (editorState : EditorState.t).

(** The calls the handler makes, in the order it makes them. *)
Inductive Action : Type :=
| PreventDefault
| GetScrollParent (target : Node)
| GetScrollPosition (scrollParent : Node)
| GetFragmentFromSelection (editorState : EditorState.t)
| SetClipboard (fragment : Fragment)
| SetRenderGuard
| SetMode (mode : string)
| SetTimeout (callback : Timer) (delay : Z)
| RestoreEditorDOM (x y : Z)
| RemoveRenderGuard
| ExitCurrentMode
| Update (editorState : EditorState.t).

(** The host document as far as the handler reads it. *)
Record Dom : Type := mkDom {
  scrollParentOf : Node -> Node;
  scrollPositionOf : Node -> Z * Z
}.

(** The editor component ([this]), the event being dispatched and the
    host around them. *)
Record World : Type := mkWorld {
  editorState : EditorState.t;      (* this.props.editorState *)
  clipboard : option Fragment;
  renderGuard : bool;
  mode : option string;
  defaultPrevented : bool;
  dom : Dom;
  timers : list Timer;
  trace : list Action
}.

Record SyntheticClipboardEvent : Type := mkEvent { target : Node }.

Definition M := state World.

Definition log (a : Action) : M unit :=
  w <- get ;;
  put (mkWorld (editorState w) (clipboard w) (renderGuard w) (mode w)
         (defaultPrevented w) (dom w) (timers w) (trace w ++ [a])).

(** [e.preventDefault()] *)
Definition preventDefault : M unit :=
  log PreventDefault ;;
  w <- get ;;
  put (mkWorld (editorState w) (clipboard w) (renderGuard w) (mode w)
         true (dom w) (timers w) (trace w)).

(** [Style.getScrollParent(node)] and [getScrollPosition(scrollable)]
    read the host document. *)
Definition getScrollParent (n : Node) : M Node :=
  log (GetScrollParent n) ;;
  w <- get ;;
  ret (scrollParentOf (dom w) n).

Definition getScrollPosition (n : Node) : M (Z * Z) :=
  log (GetScrollPosition n) ;;
  w <- get ;;
  ret (scrollPositionOf (dom w) n).

(** The methods of the editor component that the handler calls through
    [this] are not among the sources; each is put on the trace and has
    the effect the spec gives it. *)

(** Modelled from the spec: [setClipboard] is missing; the fragment is
    handed to the clipboard (writeClipboard of its part 6). *)
Definition setClipboard (f : Fragment) : M unit :=
  log (SetClipboard f) ;;
  w <- get ;;
  put (mkWorld (editorState w) (Some f) (renderGuard w) (mode w)
         (defaultPrevented w) (dom w) (timers w) (trace w)).

(** Modelled from the spec: [setRenderGuard] is missing; it suspends the
    other event handling of the editor (part 4.3, step 1). *)
Definition setRenderGuard : M unit :=
  log SetRenderGuard ;;
  w <- get ;;
  put (mkWorld (editorState w) (clipboard w) true (mode w)
         (defaultPrevented w) (dom w) (timers w) (trace w)).

(** Modelled from the spec: [removeRenderGuard] is missing; it lifts the
    suspension (part 4.3, step 3). *)
Definition removeRenderGuard : M unit :=
  log RemoveRenderGuard ;;
  w <- get ;;
  put (mkWorld (editorState w) (clipboard w) false (mode w)
         (defaultPrevented w) (dom w) (timers w) (trace w)).

(** Modelled from the spec: [setMode] is missing; it sets the mode
    (part 4.3, step 1). *)
Definition setMode (m : string) : M unit :=
  log (SetMode m) ;;
  w <- get ;;
  put (mkWorld (editorState w) (clipboard w) (renderGuard w) (Some m)
         (defaultPrevented w) (dom w) (timers w) (trace w)).

(** Modelled from the spec: [exitCurrentMode] is missing; it clears the
    mode (part 4.3, step 3). *)
Definition exitCurrentMode : M unit :=
  log ExitCurrentMode ;;
  w <- get ;;
  put (mkWorld (editorState w) (clipboard w) (renderGuard w) None
         (defaultPrevented w) (dom w) (timers w) (trace w)).

(** Modelled from the spec: [restoreEditorDOM] is missing; it asks the
    host to restore the surface and the scroll offset it is given
    (part 4.3, step 3).  What the host does then is not modelled: the
    call and its argument are on the trace. *)
Definition restoreEditorDOM (x y : Z) : M unit :=
  log (RestoreEditorDOM x y).

(** Modelled from the spec: [update] is missing; it commits its argument
    as the new editor state (part 4.3, step 4). *)
Definition update (es : EditorState.t) : M unit :=
  log (Update es) ;;
  w <- get ;;
  put (mkWorld es (clipboard w) (renderGuard w) (mode w)
         (defaultPrevented w) (dom w) (timers w) (trace w)).

(** [setTimeout(callback, delay)] of the host: the callback waits for a
    later turn (deferOneTurn of part 6). *)
Definition setTimeout (callback : Timer) (delay : Z) : M unit :=
  log (SetTimeout callback delay) ;;
  w <- get ;;
  put (mkWorld (editorState w) (clipboard w) (renderGuard w) (mode w)
         (defaultPrevented w) (dom w) (timers w ++ [callback]) (trace w)).

Section Handler.

Context {pipeline : MutationPipeline}.

(** The test that sets the local [selectCanNotUndo]. *)
Definition selectCanNotUndo (editorState : EditorState.t) : bool :=
  let contentState := EditorState.getCurrentContent editorState in
  let selectionState := EditorState.getSelection editorState in
  let startKey := SelectionState.getStartKey selectionState in
  let block := ContentState.getBlockBefore contentState startKey in
  match block with
  | None => false
  | Some _ =>
      String.eqb startKey (SelectionState.getEndKey selectionState)
      && negb (SelectionState.getStartOffset selectionState
               =? SelectionState.getEndOffset selectionState)
      && match ContentState.getBlockForKey contentState startKey with
         | Some b => String.eqb (ContentBlock.getType b) "atomic"
         | None => false
         end
  end.

Definition removeFragment (editorState : EditorState.t) : EditorState.t :=
  let contentState := EditorState.getCurrentContent editorState in
  let newContent :=
    removeRange contentState (EditorState.getSelection editorState)
      "forward" in
  let editorState :=
    if selectCanNotUndo editorState
    then forceSelection editorState
           (ContentState.getSelectionAfter newContent)
    else editorState in
  push editorState newContent "remove-range".

(** The call of [getFragmentFromSelection], put on the trace. *)
Definition extractFragment (editorState : EditorState.t) : M Fragment :=
  log (GetFragmentFromSelection editorState) ;;
  ret (getFragmentFromSelection editorState).

(** The body of the arrow function given to [setTimeout]. *)
Definition runTimer (t : Timer) : M unit :=
  match t with
  | CutRecovery x y editorState =>
      restoreEditorDOM x y ;;
      removeRenderGuard ;;
      exitCurrentMode ;;
      let afterRemove := removeFragment editorState in
      let selectionState :=
        ContentState.getSelectionAfter
          (EditorState.getCurrentContent afterRemove) in
      let afterSel := forceSelection afterRemove selectionState in
      update afterSel
  end.

Definition editOnCut (e : SyntheticClipboardEvent) : M unit :=
  w <- get ;;
  let editorState := editorState w in
  let selection := EditorState.getSelection editorState in
  if SelectionState.isCollapsed selection then
    preventDefault
  else
    scrollParent <- getScrollParent (target e) ;;
    xy <- getScrollPosition scrollParent ;;
    fragment <- extractFragment editorState ;;
    setClipboard fragment ;;
    setRenderGuard ;;
    setMode "cut" ;;
    setTimeout (CutRecovery (fst xy) (snd xy) editorState) 0.

(** The next scheduling turn: the pending callbacks run once each, in
    the order they were scheduled. *)
Fixpoint runTimers (ts : list Timer) : M unit :=
  match ts with
  | [] => ret tt
  | t :: rest => runTimer t ;; runTimers rest
  end.

Definition nextTurn : M unit :=
  w <- get ;;
  put (mkWorld (editorState w) (clipboard w) (renderGuard w) (mode w)
         (defaultPrevented w) (dom w) [] (trace w)) ;;
  runTimers (timers w).

End Handler.

(** The owner of the editor replaces the state it passes down. *)
Definition replaceEditorState (es : EditorState.t) (w : World) : World :=
  mkWorld es (clipboard w) (renderGuard w) (mode w)
    (defaultPrevented w) (dom w) (timers w) (trace w).

End EditOnCut.

(** ** DraftEditorBlock.react.js *)

Module DraftEditorBlock.

Definition SCROLL_BUFFER : Z := 10.

(** An object the block only passes along (a style map, a function, a
    component class, the props of a decorator). *)
Definition Handle := nat.

Inductive BidiDirection : Type := NEUTRAL | LTR | RTL.

Definition direction_eqb (d1 d2 : BidiDirection) : bool :=
  match d1, d2 with
  | NEUTRAL, NEUTRAL | LTR, LTR | RTL, RTL => true
  | _, _ => false
  end.

(** The interface [DraftDecoratorType]. *)
Record DraftDecoratorType : Type := mkDecorator {
  getComponentForKey : string -> option Handle;
  getPropsForKey : string -> Handle
}.

(** One entry of the decorator tree and one of its leaves. *)
Record Leaf : Type := mkLeaf { leaf_start : Z; leaf_end : Z }.

Record LeafSet : Type := mkLeafSet {
  start : Z;
  end_ : Z;
  decoratorKey : option string;
  leaves : list Leaf
}.

Record Props : Type := mkProps {
  contentState : ContentState.t;
  block : Ref ContentBlock.t;
  customStyleMap : Handle;
  customStyleFn : Handle;
  tree : Ref (list LeafSet);
  selection : SelectionState.t;
  decorator : option DraftDecoratorType;
  forceSelection : bool;
  direction : BidiDirection;
  readOnly : bool;
  textAlign : string
}.

(** [DraftOffsetKey.encode(blockKey, decoratorKey, leafKey)] joins its
    three arguments; the key is kept as the triple. *)
Definition OffsetKey := (string * nat * nat)%type.
Definition encode (blockKey : string) (ii jj : nat) : OffsetKey :=
  (blockKey, ii, jj).

(** The props given to a [DraftEditorLeaf]. *)
Record LeafProps : Type := mkLeafProps {
  lp_key : OffsetKey;
  lp_offsetKey : OffsetKey;
  lp_blockKey : string;
  lp_start : Z;
  lp_textAlign : string;
  lp_isEditing : bool;
  lp_isEmpty : bool;
  lp_readOnly : bool;
  lp_selection : option SelectionState.t;
  lp_forceSelection : bool;
  lp_text : string;
  lp_styleSet : list string;
  lp_customStyleMap : Handle;
  lp_customStyleFn : Handle;
  lp_isLast : bool
}.

(** The props given to a decorator component, apart from its children. *)
Record DecoratedProps : Type := mkDecoratedProps {
  dp_decoratorProps : Handle;
  dp_contentState : ContentState.t;
  dp_decoratedText : string;
  dp_dir : option string;
  dp_key : OffsetKey;
  dp_entityKey : option string;
  dp_offsetKey : OffsetKey
}.

(** What one leaf set renders to: the bare array of its leaves, or a
    decorator component wrapped around them. *)
Inductive Child : Type :=
| Ungrouped (leaves : list LeafProps)
| Decorated (component : Handle) (props : DecoratedProps)
    (children : list LeafProps).

Definition childLeaves (c : Child) : list LeafProps :=
  match c with
  | Ungrouped l => l
  | Decorated _ _ l => l
  end.

(** [list.map((x, i) => ...)] *)
Fixpoint mapi_from {A B} (i : nat) (f : A -> nat -> B) (l : list A) : list B :=
  match l with
  | [] => []
  | a :: rest => f a i :: mapi_from (S i) f rest
  end.

Definition mapi {A B} (f : A -> nat -> B) (l : list A) : list B :=
  mapi_from 0 f l.

(** A [map] whose callback may throw: the first exception ends it. *)
Fixpoint sequence {A} (l : list (option A)) : option (list A) :=
  match l with
  | [] => Some []
  | None :: _ => None
  | Some a :: rest =>
      match sequence rest with
      | Some r => Some (a :: r)
      | None => None
      end
  end.

Definition isBlockOnSelectionEdge (selection : SelectionState.t)
  (key : string) : bool :=
  String.eqb (SelectionState.getAnchorKey selection) key
  || String.eqb (SelectionState.getFocusKey selection) key.

Definition updateTailCR (cp np : Props) : bool :=
  let curEditing :=
    SelectionState.getHasFocus (selection cp)
    && SelectionState.isCollapsed (selection cp)
    && String.eqb (SelectionState.getStartKey (selection cp))
         (ContentBlock.getKey (obj (block cp))) in
  let nextEditing :=
    SelectionState.getHasFocus (selection np)
    && SelectionState.isCollapsed (selection np)
    && String.eqb (SelectionState.getStartKey (selection np))
         (ContentBlock.getKey (obj (block np))) in
  negb (Bool.eqb curEditing nextEditing).

Definition shouldComponentUpdate (props nextProps : Props) : bool :=
  negb (String.eqb (textAlign props) (textAlign nextProps))
  || negb (Bool.eqb (readOnly props) (readOnly nextProps))
  || negb (same_ref (block props) (block nextProps))
  || negb (same_ref (tree props) (tree nextProps))
  || updateTailCR props nextProps
  || negb (direction_eqb (direction props) (direction nextProps))
  || (isBlockOnSelectionEdge (selection nextProps)
        (ContentBlock.getKey (obj (block nextProps)))
      && forceSelection nextProps).

(** What [componentDidMount] measures in the host document. *)
Record Layout : Type := mkLayout {
  scrollParent : Node;          (* Style.getScrollParent(blockNode) *)
  scrollPosition : Z * Z;       (* getScrollPosition(scrollParent) *)
  nodePosition : Z * Z;         (* getElementPosition(blockNode): y, height *)
  viewportHeight : Z;           (* getViewportDimensions().height *)
  blockOffsetHeight : Z;
  blockOffsetTop : Z;
  parentOffsetHeight : Z;       (* scrollParent.offsetHeight *)
  scrollTop : Z                 (* Scroll.getTop(scrollParent) *)
}.

(** The writes to the scroll position of the host. *)
Inductive ScrollCommand : Type :=
| WindowScrollTo (x y : Z)
| ScrollSetTop (scrollParent : Node) (top : Z).

Definition componentDidMount (props : Props) (dom : Layout)
  : list ScrollCommand :=
  let selection := selection props in
  let endKey := SelectionState.getEndKey selection in
  if negb (SelectionState.getHasFocus selection)
     || negb (String.eqb endKey (ContentBlock.getKey (obj (block props))))
  then []
  else
    if Nat.eqb (scrollParent dom) window then
      let nodeBottom := fst (nodePosition dom) + snd (nodePosition dom) in
      let scrollDelta := nodeBottom - viewportHeight dom in
      if scrollDelta >? 0 then
        [WindowScrollTo (fst (scrollPosition dom))
           (snd (scrollPosition dom) + scrollDelta + SCROLL_BUFFER)]
      else []
    else
      let blockBottom := blockOffsetHeight dom + blockOffsetTop dom in
      let scrollBottom := parentOffsetHeight dom + snd (scrollPosition dom) in
      let scrollDelta := blockBottom - scrollBottom in
      if scrollDelta >? 0 then
        [ScrollSetTop (scrollParent dom)
           (scrollTop dom + scrollDelta + SCROLL_BUFFER)]
      else [].

Section Render.

(** [UnicodeBidi.getDirection] and
    [UnicodeBidiDirection.getHTMLDirIfDifferent] come from a library. *)
Variable getDirection : string -> BidiDirection.
Variable getHTMLDirIfDifferent :
  BidiDirection -> BidiDirection -> option string.

(** The inner [map]: the leaves of leaf set [ii]. *)
Definition renderLeaves (props : Props) (ii : nat) (leafSet : LeafSet)
  : list LeafProps :=
  let block := obj (block props) in
  let blockKey := ContentBlock.getKey block in
  let text := ContentBlock.getText block in
  let lastLeafSet := Z.of_nat (List.length (obj (tree props))) - 1 in
  let hasSelection := isBlockOnSelectionEdge (selection props) blockKey in
  let leavesForLeafSet := leaves leafSet in
  let lastLeaf := Z.of_nat (List.length leavesForLeafSet) - 1 in
  mapi (fun leaf jj =>
    let offsetKey := encode blockKey ii jj in
    let start := leaf_start leaf in
    let end_ := leaf_end leaf in
    mkLeafProps offsetKey offsetKey blockKey start (textAlign props)
      (SelectionState.getHasFocus (selection props)
       && SelectionState.isCollapsed (selection props)
       && String.eqb (SelectionState.getStartKey (selection props)) blockKey)
      ((Z.of_nat (String.length text) =? 0) && negb (readOnly props))
      (readOnly props)
      (if hasSelection then Some (selection props) else None)
      (forceSelection props)
      (slice text start end_)
      (ContentBlock.getInlineStyleAt block start)
      (customStyleMap props)
      (customStyleFn props)
      ((Z.of_nat ii =? lastLeafSet) && (Z.of_nat jj =? lastLeaf)))
    leavesForLeafSet.

(** The body of the outer [map]; [None] is the TypeError of reading
    the first leaf of a decorated leaf set that has no leaf. *)
Definition renderLeafSet (props : Props) (leafSet : LeafSet) (ii : nat)
  : option Child :=
  let block := obj (block props) in
  let blockKey := ContentBlock.getKey block in
  let text := ContentBlock.getText block in
  let leavesForLeafSet := leaves leafSet in
  let leaves := renderLeaves props ii leafSet in
  match decoratorKey leafSet with
  | None => Some (Ungrouped leaves)
  | Some decoratorKey =>
      match decorator props with
      | None => Some (Ungrouped leaves)
      | Some decorator =>
          match getComponentForKey decorator decoratorKey with
          | None => Some (Ungrouped leaves)
          | Some DecoratorComponent =>
              let decoratorProps := getPropsForKey decorator decoratorKey in
              let decoratorOffsetKey := encode blockKey ii 0 in
              match List.hd_error leavesForLeafSet,
                    List.hd_error (List.rev leavesForLeafSet) with
              | Some first, Some last =>
                  let decoratedText :=
                    slice text (leaf_start first) (leaf_end last) in
                  let dir :=
                    getHTMLDirIfDifferent (getDirection decoratedText)
                      (direction props) in
                  Some (Decorated DecoratorComponent
                          (mkDecoratedProps decoratorProps
                             (contentState props) decoratedText dir
                             decoratorOffsetKey
                             (ContentBlock.getEntityAt block (start leafSet))
                             decoratorOffsetKey)
                          leaves)
              | _, _ => None
              end
          end
      end
  end.

Definition _renderChildren (props : Props) : option (list Child) :=
  sequence (mapi (renderLeafSet props) (obj (tree props))).

End Render.

End DraftEditorBlock.

(** ** The mutation pipeline of the spec, part 4.2 *)

Module SpecPipeline.

Definition textLength (b : ContentBlock.t) : nat :=
  String.length (ContentBlock.text b).

(** The part of a block between two offsets. *)
Definition sliceBlock (b : ContentBlock.t) (from to : nat) : ContentBlock.t :=
  ContentBlock.make (ContentBlock.key b) (ContentBlock.type b)
    (substring from (to - from) (ContentBlock.text b))
    (firstn (to - from) (skipn from (ContentBlock.characterList b))).

(** The head of [first] up to [so] followed by the tail of [last] from
    [eo]; the block keeps the key and type of [first]. *)
Definition joinBlocks (first last : ContentBlock.t) (so eo : nat)
  : ContentBlock.t :=
  ContentBlock.make (ContentBlock.key first) (ContentBlock.type first)
    (ContentBlock.text (sliceBlock first 0 so)
     ++ ContentBlock.text (sliceBlock last eo (textLength last)))
    (ContentBlock.characterList (sliceBlock first 0 so)
     ++ ContentBlock.characterList (sliceBlock last eo (textLength last))).

(** The block with key [ek] and the blocks after it. *)
Fixpoint splitAt (m : list (string * ContentBlock.t)) (ek : string)
  : option (ContentBlock.t * list (string * ContentBlock.t)) :=
  match m with
  | [] => None
  | (k, b) :: rest =>
      if String.eqb k ek then Some (b, rest) else splitAt rest ek
  end.

Fixpoint removeFrom (m : list (string * ContentBlock.t))
  (sk : string) (so : nat) (ek : string) (eo : nat)
  : list (string * ContentBlock.t) :=
  match m with
  | [] => []
  | (k, b) :: rest =>
      if String.eqb k sk then
        match splitAt ((k, b) :: rest) ek with
        | Some (eb, after) => (k, joinBlocks b eb so eo) :: after
        | None => (k, b) :: rest
        end
      else (k, b) :: removeFrom rest sk so ek eo
  end.

(** The blocks from the head of [m] through the block with key [ek],
    that last one cut at [eo]. *)
Fixpoint through (m : list (string * ContentBlock.t)) (ek : string)
  (eo : nat) : Fragment :=
  match m with
  | [] => []
  | (k, b) :: rest =>
      if String.eqb k ek then [(k, sliceBlock b 0 eo)]
      else (k, b) :: through rest ek eo
  end.

Fixpoint fragmentFrom (m : list (string * ContentBlock.t))
  (sk : string) (so : nat) (ek : string) (eo : nat) : Fragment :=
  match m with
  | [] => []
  | (k, b) :: rest =>
      if String.eqb k sk then
        if String.eqb sk ek then [(k, sliceBlock b so eo)]
        else (k, sliceBlock b so (textLength b)) :: through rest ek eo
      else fragmentFrom rest sk so ek eo
  end.

(** Modelled from the spec: [DraftModifier.removeRange] is not among the
    sources.  Part 4.2 of the spec: the selected text is spliced out of the
    affected blocks, styles and entities are trimmed with it, and the
    selection after is collapsed at the start of the removed range. *)
Definition removeRange (c : ContentState.t) (s : SelectionState.t)
  (direction : string) : ContentState.t :=
  let sk := SelectionState.getStartKey s in
  let so := SelectionState.getStartOffset s in
  ContentState.make
    (removeFrom (ContentState.blockMap c) sk (Z.to_nat so)
       (SelectionState.getEndKey s) (Z.to_nat (SelectionState.getEndOffset s)))
    s
    (SelectionState.make sk so sk so false (SelectionState.hasFocus s)).

(** Modelled from the spec: [getFragmentFromSelection] is not among the
    sources.  Part 4.2 of the spec: the blocks spanned by the selection, the first
    and the last cut to the selected part. *)
Definition getFragmentFromSelection (e : EditorState.t) : Fragment :=
  let s := EditorState.getSelection e in
  fragmentFrom (ContentState.blockMap (EditorState.getCurrentContent e))
    (SelectionState.getStartKey s) (Z.to_nat (SelectionState.getStartOffset s))
    (SelectionState.getEndKey s) (Z.to_nat (SelectionState.getEndOffset s)).

(** Modelled from the spec: [EditorState.push] is not among the sources.
    Part 4.2 of the spec: the previous content goes on the undo stack, the redo
    stack is cleared, content and selection are those of the new
    content.  No edit type is marked non-undoable there. *)
Definition push (e : EditorState.t) (c : ContentState.t)
  (editType : string) : EditorState.t :=
  EditorState.make c (ContentState.selectionAfter c)
    (EditorState.currentContent e :: EditorState.undoStack e) []
    (EditorState.mustForceSelection e).

(** Modelled from the spec: [EditorState.forceSelection] is not among
    the sources.  Part 4.2 of the spec: only the selection is replaced and the
    force flag is set. *)
Definition forceSelection (e : EditorState.t) (s : SelectionState.t)
  : EditorState.t :=
  EditorState.make (EditorState.currentContent e) s
    (EditorState.undoStack e) (EditorState.redoStack e) true.

Definition pipeline : MutationPipeline :=
  Build_MutationPipeline removeRange push forceSelection
    getFragmentFromSelection.

End SpecPipeline.

(** ** The properties as the specification states them *)

(** Part 4.1 of the spec: the leaf flag [isEditing]. *)
Definition spec_isEditing (selection : SelectionState.t) (blockKey : string)
  : bool :=
  SelectionState.hasFocus selection
  && SelectionState.isCollapsed selection
  && String.eqb (SelectionState.getStartKey selection) blockKey.

(** Part 4.1 of the spec: the block is on either edge of the selection. *)
Definition spec_onSelectionEdge (selection : SelectionState.t)
  (blockKey : string) : Prop :=
  SelectionState.anchorKey selection = blockKey
  \/ SelectionState.focusKey selection = blockKey.

(** The timers a cut event adds to those already pending. *)
Definition scheduled {pipeline : MutationPipeline}
  (e : EditOnCut.SyntheticClipboardEvent) (w : EditOnCut.World)
  : list EditOnCut.Timer :=
  skipn (List.length (EditOnCut.timers w))
    (EditOnCut.timers (execState (EditOnCut.editOnCut e) w)).

(** How far the bottom edge of the block lies below the visible bottom of
    its scroll parent, or of the viewport when the window scrolls. *)
Definition overshoot (dom : DraftEditorBlock.Layout) : Z :=
  if Nat.eqb (DraftEditorBlock.scrollParent dom) window then
    (fst (DraftEditorBlock.nodePosition dom)
     + snd (DraftEditorBlock.nodePosition dom))
    - DraftEditorBlock.viewportHeight dom
  else
    (DraftEditorBlock.blockOffsetHeight dom + DraftEditorBlock.blockOffsetTop dom)
    - (DraftEditorBlock.parentOffsetHeight dom
       + snd (DraftEditorBlock.scrollPosition dom)).

(** The vertical scroll position the component reads before it writes. *)
Definition currentTop (dom : DraftEditorBlock.Layout) : Z :=
  if Nat.eqb (DraftEditorBlock.scrollParent dom) window
  then snd (DraftEditorBlock.scrollPosition dom)
  else DraftEditorBlock.scrollTop dom.

(** The vertical position a scroll command asks for. *)
Definition commandTop (c : DraftEditorBlock.ScrollCommand) : Z :=
  match c with
  | DraftEditorBlock.WindowScrollTo _ y => y
  | DraftEditorBlock.ScrollSetTop _ top => top
  end.

(** ** Concrete documents *)

Module Sample.

Definition plain (n : nat) : list ContentBlock.CharacterMetadata :=
  repeat (ContentBlock.mkChar [] None) n.

Definition para : ContentBlock.t := ContentBlock.make "p1" "unstyled" "abc" (plain 3).
Definition image : ContentBlock.t := ContentBlock.make "img" "atomic" " " (plain 1).
Definition blank : ContentBlock.t := ContentBlock.make "p2" "unstyled" EmptyString [].

Definition sel (ak : string) (ao : Z) (fk : string) (fo : Z) (back : bool)
  : SelectionState.t :=
  SelectionState.make ak ao fk fo back true.

Definition content (blocks : list ContentBlock.t) (s : SelectionState.t)
  : ContentState.t :=
  ContentState.make (map (fun b => (ContentBlock.key b, b)) blocks) s s.

Definition editor (blocks : list ContentBlock.t) (s : SelectionState.t)
  : EditorState.t :=
  EditorState.make (content blocks s) s [] [] false.

(** "bc" selected in the paragraph "abc". *)
Definition abc_1_3 : EditorState.t := editor [para] (sel "p1" 1 "p1" 3 false).
(** The caret at offset 2 of "abc". *)
Definition abc_caret : EditorState.t := editor [para] (sel "p1" 2 "p1" 2 false).
(** An atomic block selected whole, after a paragraph. *)
Definition image_second : EditorState.t :=
  editor [para; image] (sel "img" 0 "img" 1 false).
(** An atomic block selected whole, first in the document. *)
Definition image_first : EditorState.t :=
  editor [image; para] (sel "img" 0 "img" 1 false).

Definition dom : EditOnCut.Dom :=
  EditOnCut.mkDom (fun _ => 7%nat)
    (fun n => if Nat.eqb n 7 then (0, 120) else (0, 0)).

Definition world (es : EditorState.t) : EditOnCut.World :=
  EditOnCut.mkWorld es None false None false dom [] [].

Definition cutEvent : EditOnCut.SyntheticClipboardEvent := EditOnCut.mkEvent 3%nat.

(** Props of a block with one undecorated leaf set of one leaf. *)
Definition props (b : ContentBlock.t) (s : SelectionState.t) (ro : bool)
  : DraftEditorBlock.Props :=
  DraftEditorBlock.mkProps (content [b] s) (mkRef 1 b) 0%nat 0%nat
    (mkRef 2
       [DraftEditorBlock.mkLeafSet 0 (Z.of_nat (SpecPipeline.textLength b)) None
          [DraftEditorBlock.mkLeaf 0 (Z.of_nat (SpecPipeline.textLength b))]])
    s None false DraftEditorBlock.LTR ro "left".

(** The window scrolls; the block ends 30 below a viewport of 600. *)
Definition windowLayout : DraftEditorBlock.Layout :=
  DraftEditorBlock.mkLayout window (0, 200) (610, 20) 600 20 0 0 0.

(** An element scrolls; the block ends at 500, the visible part at 450. *)
Definition elementLayout : DraftEditorBlock.Layout :=
  DraftEditorBlock.mkLayout 7%nat (0, 50) (0, 0) 600 20 480 400 50.

(** The caret in an empty paragraph. *)
Definition caret : SelectionState.t := sel "p2" 0 "p2" 0 false.

(** Stand-ins for the two functions of the bidi library. *)
Definition ltr : string -> DraftEditorBlock.BidiDirection :=
  fun _ => DraftEditorBlock.LTR.
Definition noDir : DraftEditorBlock.BidiDirection ->
  DraftEditorBlock.BidiDirection -> option string := fun _ _ => None.

End Sample.

(** ** The state a cut commits *)

(** What the callback of a cut that found [es] hands to [update]. *)
Definition committed {pipeline : MutationPipeline} (es : EditorState.t)
  : EditorState.t :=
  forceSelection (EditOnCut.removeFragment es)
    (ContentState.getSelectionAfter
       (EditorState.getCurrentContent (EditOnCut.removeFragment es))).

(** ** Leaf ranges that follow one another *)

(** The texts of a sequence of leaves, joined. *)
Definition joinText (l : list string) : string :=
  fold_right String.append EmptyString l.

(** The leaves start at [from], each one starts where the one before it
    ends, and none ends before it starts; the answer is the end of the
    last one. *)
Fixpoint chained (from : Z) (l : list DraftEditorBlock.Leaf) : option Z :=
  match l with
  | [] => Some from
  | leaf :: rest =>
      if (DraftEditorBlock.leaf_start leaf =? from)
         && (from <=? DraftEditorBlock.leaf_end leaf)
      then chained (DraftEditorBlock.leaf_end leaf) rest
      else None
  end.

(** The same for the leaf sets of a tree, one after the other. *)
Fixpoint chainedSets (from : Z) (t : list DraftEditorBlock.LeafSet) : option Z :=
  match t with
  | [] => Some from
  | ls :: rest =>
      match chained from (DraftEditorBlock.leaves ls) with
      | Some mid => chainedSets mid rest
      | None => None
      end
  end.

(** All the text the children of a block show, in order. *)
Definition shownText (out : list DraftEditorBlock.Child) : string :=
  joinText
    (map (fun c => joinText (map DraftEditorBlock.lp_text
                               (DraftEditorBlock.childLeaves c))) out).

(** ** A decorated document *)

Module Linked.

(** A decorator that knows the key "link" and no other. *)
Definition decorator : DraftEditorBlock.DraftDecoratorType :=
  DraftEditorBlock.mkDecorator
    (fun k => if String.eqb k "link" then Some 5%nat else None)
    (fun _ => 9%nat).

Definition hello : ContentBlock.t :=
  ContentBlock.make "p1" "unstyled" "hello world" (Sample.plain 11).

(** "hello " plain, then "world" under the link decorator in two leaves. *)
Definition tree : list DraftEditorBlock.LeafSet :=
  [DraftEditorBlock.mkLeafSet 0 6 None [DraftEditorBlock.mkLeaf 0 6];
   DraftEditorBlock.mkLeafSet 6 11 (Some "link")
     [DraftEditorBlock.mkLeaf 6 8; DraftEditorBlock.mkLeaf 8 11]].

(** A tree whose decorated leaf set has lost its leaves. *)
Definition brokenTree : list DraftEditorBlock.LeafSet :=
  [DraftEditorBlock.mkLeafSet 0 6 None [DraftEditorBlock.mkLeaf 0 6];
   DraftEditorBlock.mkLeafSet 6 11 (Some "link") []].

Definition props (t : list DraftEditorBlock.LeafSet) (s : SelectionState.t)
  : DraftEditorBlock.Props :=
  DraftEditorBlock.mkProps (Sample.content [hello] s) (mkRef 1 hello)
    0%nat 0%nat (mkRef 2 t) s (Some decorator) false DraftEditorBlock.LTR
    false "left".

(** The caret in "hello world"; a selection in another block. *)
Definition caretHere : SelectionState.t := Sample.sel "p1" 3 "p1" 3 false.
Definition elsewhere : SelectionState.t := Sample.sel "p7" 0 "p8" 2 false.

End Linked.

(** ** The cut handler *)

Import EditOnCut.
Local Open Scope list_scope.

Section CutHandler.

Context {pipeline : MutationPipeline}.

(** Running the handler on a collapsed selection. *)
Lemma editOnCut_run_collapsed e w :
  SelectionState.isCollapsed (EditorState.getSelection (editorState w)) = true ->
  execState (editOnCut e) w = execState preventDefault w.
Proof.
  intros H. unfold editOnCut, execState. cbn. rewrite H. reflexivity.
Qed.

(** Running the handler on a selection that is not collapsed. *)
Lemma editOnCut_run_selected e w :
  SelectionState.isCollapsed (EditorState.getSelection (editorState w)) = false ->
  let es := editorState w in
  let xy := scrollPositionOf (dom w) (scrollParentOf (dom w) (target e)) in
  let fragment := getFragmentFromSelection es in
  let timer := CutRecovery (fst xy) (snd xy) es in
  execState (editOnCut e) w =
  mkWorld es (Some fragment) true (Some "cut") (defaultPrevented w) (dom w)
    (timers w ++ [timer])
    (trace w ++ [GetScrollParent (target e);
                 GetScrollPosition (scrollParentOf (dom w) (target e));
                 GetFragmentFromSelection es;
                 SetClipboard fragment;
                 SetRenderGuard;
                 SetMode "cut";
                 SetTimeout timer 0]).
Proof.
  intros H. unfold editOnCut, execState. cbn. rewrite H. cbn.
  repeat rewrite <- app_assoc. reflexivity.
Qed.

(** Running the deferred callback in any state of the editor. *)
Lemma runTimer_run x y es w :
  let afterRemove := removeFragment es in
  let afterSel :=
    forceSelection afterRemove
      (ContentState.getSelectionAfter
         (EditorState.getCurrentContent afterRemove)) in
  execState (runTimer (CutRecovery x y es)) w =
  mkWorld afterSel (clipboard w) false None (defaultPrevented w) (dom w)
    (timers w)
    (trace w ++ [RestoreEditorDOM x y; RemoveRenderGuard; ExitCurrentMode;
                 Update afterSel]).
Proof.
  unfold runTimer, execState. cbn.
  repeat rewrite <- app_assoc. reflexivity.
Qed.

(** The one timer a cut on a selection adds. *)
Lemma scheduled_selected e w :
  SelectionState.isCollapsed (EditorState.getSelection (editorState w)) = false ->
  let xy := scrollPositionOf (dom w) (scrollParentOf (dom w) (target e)) in
  scheduled e w = [CutRecovery (fst xy) (snd xy) (editorState w)].
Proof.
  intros H. unfold scheduled. rewrite (editOnCut_run_selected e w H). cbn.
  rewrite skipn_app, skipn_all, Nat.sub_diag. reflexivity.
Qed.

(** A turn with one pending callback runs that callback. *)
Lemma nextTurn_single w t :
  timers w = [t] ->
  execState nextTurn w =
  execState (runTimer t)
    (mkWorld (editorState w) (clipboard w) (renderGuard w) (mode w)
       (defaultPrevented w) (dom w) [] (trace w)).
Proof.
  intros H. unfold nextTurn, execState. cbn. rewrite H. cbn.
  destruct (runState (runTimer t) _) as [[] w']. reflexivity.
Qed.

Lemma before_some_lookup m k prev b :
  ContentState.before prev m k = Some b ->
  exists b', ContentState.lookup m k = Some b'.
Proof.
  revert prev. induction m as [|[k' b'] rest IH]; intros prev H; cbn in *.
  - discriminate.
  - destruct (String.eqb k' k).
    + exists b'. reflexivity.
    + exact (IH _ H).
Qed.

(** When a block comes before key [k], [k] is a key of the content: where
    [removeFragment] reads the type of the block at the start key, the
    block is there. *)
Lemma getBlockBefore_some_getBlockForKey c k b :
  ContentState.getBlockBefore c k = Some b ->
  exists b', ContentState.getBlockForKey c k = Some b'.
Proof. apply before_some_lookup. Qed.

(** C1: with a collapsed selection the handler calls [preventDefault]
    and nothing else: the clipboard, the render guard, the mode, the
    editor state and the pending timers are those it found, and the only
    call on the trace is [preventDefault]. *)
Theorem cut_collapsed_only_prevents_default e w :
  SelectionState.isCollapsed (EditorState.getSelection (editorState w)) = true ->
  execState (editOnCut e) w =
  mkWorld (editorState w) (clipboard w) (renderGuard w) (mode w) true
    (dom w) (timers w) (trace w ++ [PreventDefault]).
Proof.
  intros H. rewrite (editOnCut_run_collapsed e w H). reflexivity.
Qed.

(** C5: with a selection that is not collapsed the handler makes, in
    this order and before the timer is set, these calls: it reads the
    scroll parent of the target and its scroll position, takes the
    fragment of the selection, gives it to the clipboard, sets the
    render guard and sets the mode to cut.  The native action is not
    suppressed. *)
Theorem cut_selected_calls_in_order e w :
  SelectionState.isCollapsed (EditorState.getSelection (editorState w)) = false ->
  let es := editorState w in
  let scrollParent := scrollParentOf (dom w) (target e) in
  let xy := scrollPositionOf (dom w) scrollParent in
  let fragment := getFragmentFromSelection es in
  let w' := execState (editOnCut e) w in
  trace w' =
    trace w ++ [GetScrollParent (target e);
                GetScrollPosition scrollParent;
                GetFragmentFromSelection es;
                SetClipboard fragment;
                SetRenderGuard;
                SetMode "cut";
                SetTimeout (CutRecovery (fst xy) (snd xy) es) 0]
  /\ clipboard w' = Some fragment
  /\ renderGuard w' = true
  /\ mode w' = Some "cut"
  /\ defaultPrevented w' = defaultPrevented w
  /\ editorState w' = es.
Proof.
  intros H es scrollParent xy fragment w'. subst w'.
  rewrite (editOnCut_run_selected e w H). cbn. repeat split.
Qed.

(** C2: the callback a cut on a selection schedules carries the scroll
    position read when the event fired.  Whenever it runs it first
    restores the editor DOM with that position, then removes the render
    guard, then leaves the mode, and last commits
    [forceSelection afterRemove (selectionAfter of afterRemove's content)],
    where [afterRemove] is the push, with edit type remove-range, of the
    content [removeRange] makes of the content and selection of the
    event, direction forward. *)
Theorem cut_recovery_restores_then_commits e w :
  SelectionState.isCollapsed (EditorState.getSelection (editorState w)) = false ->
  let es := editorState w in
  let xy := scrollPositionOf (dom w) (scrollParentOf (dom w) (target e)) in
  let newContent :=
    removeRange (EditorState.currentContent es) (EditorState.selection es)
      "forward" in
  let afterRemove :=
    push (if selectCanNotUndo es
          then forceSelection es (ContentState.selectionAfter newContent)
          else es)
      newContent "remove-range" in
  let afterSel :=
    forceSelection afterRemove
      (ContentState.selectionAfter (EditorState.currentContent afterRemove)) in
  let timer := CutRecovery (fst xy) (snd xy) es in
  scheduled e w = [timer]
  /\ forall w' : World,
       execState (runTimer timer) w' =
       mkWorld afterSel (clipboard w') false None (defaultPrevented w')
         (dom w') (timers w')
         (trace w' ++ [RestoreEditorDOM (fst xy) (snd xy);
                       RemoveRenderGuard;
                       ExitCurrentMode;
                       Update afterSel]).
Proof.
  intros H es xy newContent afterRemove afterSel timer. split.
  - exact (scheduled_selected e w H).
  - intros w'. subst timer. rewrite runTimer_run. reflexivity.
Qed.

(** C9: the state the callback commits is fixed by the editor state the
    event found.  Two cuts that find the same editor state commit the
    same state, whatever the two events, the two hosts, and the states
    of the editor in which the two callbacks run; in particular the
    owner replacing the editor state before the next turn changes
    nothing. *)
Theorem cut_commit_fixed_by_snapshot e1 e2 w1 w2 :
  editorState w1 = editorState w2 ->
  SelectionState.isCollapsed (EditorState.getSelection (editorState w1)) = false ->
  exists t1 t2,
    scheduled e1 w1 = [t1] /\ scheduled e2 w2 = [t2]
    /\ (forall w1' w2',
          editorState (execState (runTimer t1) w1') =
          editorState (execState (runTimer t2) w2'))
    /\ (forall es1 es2,
          timers w1 = [] -> timers w2 = [] ->
          editorState
            (execState nextTurn
               (replaceEditorState es1 (execState (editOnCut e1) w1))) =
          editorState
            (execState nextTurn
               (replaceEditorState es2 (execState (editOnCut e2) w2)))).
Proof.
  intros E H1. assert (H2 := H1). rewrite E in H2.
  eexists. eexists.
  split; [exact (scheduled_selected e1 w1 H1)|].
  split; [exact (scheduled_selected e2 w2 H2)|].
  split.
  - intros w1' w2'. rewrite !runTimer_run, E. reflexivity.
  - intros es1 es2 T1 T2.
    rewrite (editOnCut_run_selected e1 w1 H1), (editOnCut_run_selected e2 w2 H2).
    unfold replaceEditorState. cbn [timers editorState clipboard renderGuard
      mode defaultPrevented dom trace].
    rewrite T1, T2. cbn [app].
    erewrite !nextTurn_single by reflexivity.
    rewrite !runTimer_run, E. reflexivity.
Qed.

(** C3, as the code has it: when the selection starts and ends in one
    block, at different offsets, the block is atomic and a block comes
    before it in the content, [selectCanNotUndo] is set and the editor
    state is forced to the selection after the removal before the push. *)
Theorem atomic_cut_forces_selection es b :
  let content := EditorState.currentContent es in
  let sel := EditorState.selection es in
  let startKey := SelectionState.getStartKey sel in
  startKey = SelectionState.getEndKey sel ->
  SelectionState.getStartOffset sel <> SelectionState.getEndOffset sel ->
  ContentState.getBlockForKey content startKey = Some b ->
  ContentBlock.getType b = "atomic" ->
  ContentState.getBlockBefore content startKey <> None ->
  let newContent := removeRange content sel "forward" in
  selectCanNotUndo es = true
  /\ removeFragment es =
     push (forceSelection es (ContentState.selectionAfter newContent))
       newContent "remove-range".
Proof.
  intros content sel startKey Hkey Hoff Hb Hty Hbefore newContent.
  assert (S : selectCanNotUndo es = true).
  { unfold selectCanNotUndo, EditorState.getCurrentContent,
      EditorState.getSelection.
    fold content sel startKey.
    destruct (ContentState.getBlockBefore content startKey); [|congruence].
    rewrite Hb, Hty, <- Hkey, String.eqb_refl.
    apply Z.eqb_neq in Hoff. rewrite Hoff. reflexivity. }
  split; [exact S|].
  unfold removeFragment. rewrite S. reflexivity.
Qed.

End CutHandler.

(** ** The cut handler on concrete documents *)

Section CutScenarios.

#[local] Existing Instance SpecPipeline.pipeline.


(** The scenarios of part 8 of the spec: cutting "bc" out of "abc" leaves "a" with
    the caret at offset 1 and one more entry on the undo stack; the
    fragment holds "bc". *)
Example cut_bc_scenario :
  let w := execState nextTurn
             (execState (editOnCut Sample.cutEvent) (Sample.world Sample.abc_1_3)) in
  map (fun kb => ContentBlock.text (snd kb))
    (ContentState.blockMap (EditorState.currentContent (editorState w))) = ["a"]
  /\ EditorState.selection (editorState w) = Sample.sel "p1" 1 "p1" 1 false
  /\ List.length (EditorState.undoStack (editorState w)) = 1%nat
  /\ option_map (map (fun kb => ContentBlock.text (snd kb))) (clipboard w)
     = Some ["bc"]
  /\ renderGuard w = false /\ mode w = None.
Proof. cbv. repeat split. Qed.

Lemma cut_collapsed_only_prevents_default_witness :
  SelectionState.isCollapsed
    (EditorState.getSelection (editorState (Sample.world Sample.abc_caret))) = true
  /\ execState (editOnCut Sample.cutEvent) (Sample.world Sample.abc_caret) =
     mkWorld Sample.abc_caret None false None true Sample.dom [] [PreventDefault].
Proof.
  split; [reflexivity|].
  exact (cut_collapsed_only_prevents_default Sample.cutEvent
           (Sample.world Sample.abc_caret) eq_refl).
Defined.

Lemma cut_selected_calls_in_order_witness :
  SelectionState.isCollapsed
    (EditorState.getSelection (editorState (Sample.world Sample.abc_1_3))) = false
  /\ trace (execState (editOnCut Sample.cutEvent) (Sample.world Sample.abc_1_3)) =
     [GetScrollParent 3%nat; GetScrollPosition 7%nat;
      GetFragmentFromSelection Sample.abc_1_3;
      SetClipboard (getFragmentFromSelection Sample.abc_1_3);
      SetRenderGuard; SetMode "cut";
      SetTimeout (CutRecovery 0 120 Sample.abc_1_3) 0].
Proof.
  split; [reflexivity|].
  exact (proj1 (cut_selected_calls_in_order Sample.cutEvent
                  (Sample.world Sample.abc_1_3) eq_refl)).
Defined.

Lemma cut_recovery_restores_then_commits_witness :
  SelectionState.isCollapsed
    (EditorState.getSelection (editorState (Sample.world Sample.abc_1_3))) = false
  /\ scheduled Sample.cutEvent (Sample.world Sample.abc_1_3)
     = [CutRecovery 0 120 Sample.abc_1_3]
  /\ EditorState.selection
       (editorState
          (execState (runTimer (CutRecovery 0 120 Sample.abc_1_3))
             (Sample.world Sample.abc_caret)))
     = Sample.sel "p1" 1 "p1" 1 false.
Proof.
  split; [reflexivity|].
  pose proof (cut_recovery_restores_then_commits Sample.cutEvent
                (Sample.world Sample.abc_1_3) eq_refl) as [S R].
  split; [exact S|].
  change (fst (scrollPositionOf (dom (Sample.world Sample.abc_1_3))
                 (scrollParentOf (dom (Sample.world Sample.abc_1_3))
                    (target Sample.cutEvent)))) with 0 in R.
  change (snd (scrollPositionOf (dom (Sample.world Sample.abc_1_3))
                 (scrollParentOf (dom (Sample.world Sample.abc_1_3))
                    (target Sample.cutEvent)))) with 120 in R.
  change (editorState (Sample.world Sample.abc_1_3)) with Sample.abc_1_3 in R.
  rewrite (R (Sample.world Sample.abc_caret)). reflexivity.
Defined.

Lemma cut_commit_fixed_by_snapshot_witness :
  let w1 := Sample.world Sample.abc_1_3 in
  let w2 := mkWorld Sample.abc_1_3 None false None false
              (mkDom (fun n => n) (fun _ => (5, 9))) [] [PreventDefault] in
  editorState w1 = editorState w2
  /\ SelectionState.isCollapsed (EditorState.getSelection (editorState w1)) = false
  /\ editorState
       (execState nextTurn
          (replaceEditorState Sample.abc_caret
             (execState (editOnCut Sample.cutEvent) w1))) =
     editorState
       (execState nextTurn
          (replaceEditorState Sample.image_first
             (execState (editOnCut (mkEvent 1%nat)) w2))).
Proof.
  intros w1 w2. split; [reflexivity|]. split; [reflexivity|].
  destruct (cut_commit_fixed_by_snapshot Sample.cutEvent (mkEvent 1%nat) w1 w2
              eq_refl eq_refl) as (t1 & t2 & _ & _ & _ & N).
  exact (N Sample.abc_caret Sample.image_first eq_refl eq_refl).
Defined.

(** C3 as stated fails: an atomic block selected whole, first in the
    content, is cut without [selectCanNotUndo] and without forcing the
    selection before the push. *)
Lemma atomic_first_block_cut_not_forced :
  let es := Sample.image_first in
  let content := EditorState.currentContent es in
  let sel := EditorState.selection es in
  let newContent := removeRange content sel "forward" in
  ( SelectionState.isCollapsed sel = false
    /\ SelectionState.getStartKey sel = SelectionState.getEndKey sel
    /\ SelectionState.getStartOffset sel <> SelectionState.getEndOffset sel
    /\ option_map ContentBlock.getType
         (ContentState.getBlockForKey content (SelectionState.getStartKey sel))
       = Some "atomic" )
  /\ selectCanNotUndo es = false
  /\ removeFragment es = push es newContent "remove-range"
  /\ removeFragment es <>
     push (forceSelection es (ContentState.selectionAfter newContent))
       newContent "remove-range".
Proof.
  cbv zeta. split; [|split; [|split]].
  - repeat split; try reflexivity. discriminate.
  - reflexivity.
  - reflexivity.
  - intros E. apply (f_equal EditorState.mustForceSelection) in E.
    discriminate E.
Qed.

Lemma atomic_cut_forces_selection_witness :
  let es := Sample.image_second in
  let sel := EditorState.selection es in
  SelectionState.getStartKey sel = SelectionState.getEndKey sel
  /\ SelectionState.getStartOffset sel <> SelectionState.getEndOffset sel
  /\ ContentState.getBlockForKey (EditorState.currentContent es)
       (SelectionState.getStartKey sel) = Some Sample.image
  /\ ContentBlock.getType Sample.image = "atomic"
  /\ ContentState.getBlockBefore (EditorState.currentContent es)
       (SelectionState.getStartKey sel) <> None
  /\ selectCanNotUndo es = true.
Proof.
  cbv zeta.
  assert (O : SelectionState.getStartOffset (EditorState.selection Sample.image_second)
              <> SelectionState.getEndOffset (EditorState.selection Sample.image_second))
    by discriminate.
  assert (B : ContentState.getBlockBefore
                (EditorState.currentContent Sample.image_second)
                (SelectionState.getStartKey (EditorState.selection Sample.image_second))
              <> None) by discriminate.
  repeat (split; [first [reflexivity | assumption]|]).
  exact (proj1 (atomic_cut_forces_selection Sample.image_second
                  eq_refl O eq_refl eq_refl B)).
Defined.

End CutScenarios.

(** ** The block renderer *)

Section BlockRenderer.

Import DraftEditorBlock.

Variable getDirection : string -> BidiDirection.
Variable getHTMLDirIfDifferent : BidiDirection -> BidiDirection -> option string.

Lemma mapi_from_nth_error {A B} (f : A -> nat -> B) l i n :
  nth_error (mapi_from i f l) n =
  option_map (fun a => f a (i + n)%nat) (nth_error l n).
Proof.
  revert i n. induction l as [|a rest IH]; intros i [|n]; cbn; trivial.
  - rewrite Nat.add_0_r. reflexivity.
  - rewrite IH. rewrite Nat.add_succ_r. reflexivity.
Qed.

Lemma mapi_nth_error {A B} (f : A -> nat -> B) l n :
  nth_error (mapi f l) n = option_map (fun a => f a n) (nth_error l n).
Proof. unfold mapi. rewrite mapi_from_nth_error. reflexivity. Qed.

Lemma sequence_some {A} (l : list (option A)) out :
  sequence l = Some out -> l = map Some out.
Proof.
  revert out. induction l as [|[a|] rest IH]; intros out H; cbn in H.
  - injection H as <-. reflexivity.
  - destruct (sequence rest) as [r|]; [|discriminate].
    injection H as <-. cbn. f_equal. apply IH. reflexivity.
  - discriminate.
Qed.

(** Entry [ii] of the children is what the body of the outer map returns
    for leaf set [ii]. *)
Lemma renderChildren_nth props out ii ls :
  _renderChildren getDirection getHTMLDirIfDifferent props = Some out ->
  nth_error (obj (tree props)) ii = Some ls ->
  exists c,
    renderLeafSet getDirection getHTMLDirIfDifferent props ls ii = Some c
    /\ nth_error out ii = Some c.
Proof.
  unfold _renderChildren. intros H Hls.
  apply sequence_some in H.
  assert (N := mapi_nth_error
                 (renderLeafSet getDirection getHTMLDirIfDifferent props)
                 (obj (tree props)) ii).
  rewrite H, Hls, nth_error_map in N. cbn in N.
  destruct (nth_error out ii) as [c|]; [|discriminate].
  exists c. cbn in N. split; congruence.
Qed.

(** Grouped or not, the leaves of a child are those of the inner map. *)
Lemma renderLeafSet_leaves props ls ii c :
  renderLeafSet getDirection getHTMLDirIfDifferent props ls ii = Some c ->
  childLeaves c = renderLeaves props ii ls.
Proof.
  unfold renderLeafSet. intros H.
  destruct (decoratorKey ls); [|injection H as <-; reflexivity].
  destruct (decorator props); [|injection H as <-; reflexivity].
  destruct (getComponentForKey _ _); [|injection H as <-; reflexivity].
  destruct (hd_error (leaves ls)); [|discriminate].
  destruct (hd_error (rev (leaves ls))); [|discriminate].
  injection H as <-. reflexivity.
Qed.

(** The props of leaf [jj] of leaf set [ii]. *)
Lemma renderLeaves_nth props ii ls jj leaf :
  nth_error (leaves ls) jj = Some leaf ->
  exists lp,
    nth_error (renderLeaves props ii ls) jj = Some lp
    /\ lp_isEditing lp =
       spec_isEditing (selection props) (ContentBlock.key (obj (block props)))
    /\ lp_isEmpty lp =
       ((Z.of_nat (String.length (ContentBlock.text (obj (block props)))) =? 0)
        && negb (readOnly props)).
Proof.
  intros H. unfold renderLeaves. rewrite mapi_nth_error, H. cbn.
  eexists. split; [reflexivity|]. cbn. split; reflexivity.
Qed.

(** The render throws only on a decorated leaf set without leaves. *)
Lemma renderChildren_returns props :
  Forall (fun ls => leaves ls <> []) (obj (tree props)) ->
  exists out, _renderChildren getDirection getHTMLDirIfDifferent props = Some out.
Proof.
  unfold _renderChildren, mapi. generalize 0%nat.
  induction (obj (tree props)) as [|ls rest IH]; intros i F; cbn.
  - eexists. reflexivity.
  - inversion F as [|? ? Hne Frest]; subst.
    destruct (IH (S i) Frest) as [r Hr]. rewrite Hr.
    assert (exists c, renderLeafSet getDirection getHTMLDirIfDifferent props ls i
                      = Some c) as [c Hc].
    { unfold renderLeafSet.
      destruct (decoratorKey ls); [|eexists; reflexivity].
      destruct (decorator props); [|eexists; reflexivity].
      destruct (getComponentForKey _ _); [|eexists; reflexivity].
      destruct (leaves ls) as [|l0 rest0] eqn:E; [congruence|].
      cbn [hd_error]. destruct (rev (l0 :: rest0)) eqn:R.
      - apply (f_equal (@List.length _)) in R. rewrite length_rev in R.
        discriminate.
      - cbn. eexists. reflexivity. }
    rewrite Hc. eexists. reflexivity.
Qed.

(** C4: [shouldComponentUpdate] answers true exactly when the block
    reference changed, or the tree reference changed, or the text
    alignment, the read-only flag or the direction changed, or the
    isEditing flag of the block flipped, or the block of the next props is
    on an edge of the next selection while the next props force the
    selection. *)
Theorem shouldComponentUpdate_iff (prev next : Props) :
  shouldComponentUpdate prev next = true <->
  ( addr (block prev) <> addr (block next)
    \/ addr (tree prev) <> addr (tree next)
    \/ textAlign prev <> textAlign next
    \/ readOnly prev <> readOnly next
    \/ direction prev <> direction next
    \/ spec_isEditing (selection prev) (ContentBlock.key (obj (block prev)))
       <> spec_isEditing (selection next) (ContentBlock.key (obj (block next)))
    \/ (spec_onSelectionEdge (selection next)
          (ContentBlock.key (obj (block next)))
        /\ forceSelection next = true) ).
Proof.
  unfold shouldComponentUpdate, updateTailCR, isBlockOnSelectionEdge,
    spec_isEditing, spec_onSelectionEdge, same_ref,
    SelectionState.getHasFocus, SelectionState.getAnchorKey,
    SelectionState.getFocusKey, ContentBlock.getKey.
  set (ed1 := SelectionState.hasFocus (selection prev) && _ && _).
  set (ed2 := SelectionState.hasFocus (selection next) && _ && _).
  destruct (String.eqb_spec (textAlign prev) (textAlign next)) as [Ta|Ta];
  destruct (Bool.eqb_spec (readOnly prev) (readOnly next)) as [Ro|Ro];
  destruct (Nat.eqb_spec (addr (block prev)) (addr (block next))) as [Bl|Bl];
  destruct (Nat.eqb_spec (addr (tree prev)) (addr (tree next))) as [Tr|Tr];
  destruct (Bool.eqb_spec ed1 ed2) as [Ed|Ed];
  cbn [negb orb]; try (split; [tauto | reflexivity]).
  assert (D : direction_eqb (direction prev) (direction next) = true
              <-> direction prev = direction next).
  { destruct (direction prev), (direction next); cbn; split;
      intros; congruence. }
  destruct (direction_eqb (direction prev) (direction next)) eqn:Dir;
    cbn [negb orb].
  - assert (Deq : direction prev = direction next) by (apply D; reflexivity).
    rewrite andb_true_iff, orb_true_iff.
    destruct (String.eqb_spec (SelectionState.anchorKey (selection next))
                (ContentBlock.key (obj (block next))));
    destruct (String.eqb_spec (SelectionState.focusKey (selection next))
                (ContentBlock.key (obj (block next))));
    intuition congruence.
  - split; [|reflexivity]. intros _. right. right. right. right. left.
    intros Deq. apply D in Deq. discriminate.
Qed.

(** C6: a leaf set without a decorator key, or rendered without a
    decorator, or whose key has no component in the decorator, renders to
    the bare array of its leaves; the three cases give the same value, and
    it is the entry of that leaf set in the children of the block. *)
Theorem undecorated_leaf_set_is_ungrouped props ls ii :
  ( decoratorKey ls = None
    \/ decorator props = None
    \/ (exists d k, decorator props = Some d /\ decoratorKey ls = Some k
                    /\ getComponentForKey d k = None) ) ->
  renderLeafSet getDirection getHTMLDirIfDifferent props ls ii =
    Some (Ungrouped (renderLeaves props ii ls))
  /\ (forall out,
        nth_error (obj (tree props)) ii = Some ls ->
        _renderChildren getDirection getHTMLDirIfDifferent props = Some out ->
        nth_error out ii = Some (Ungrouped (renderLeaves props ii ls))).
Proof.
  intros H.
  assert (R : renderLeafSet getDirection getHTMLDirIfDifferent props ls ii =
              Some (Ungrouped (renderLeaves props ii ls))).
  { unfold renderLeafSet.
    destruct H as [H | [H | (d & k & Hd & Hk & Hc)]].
    - rewrite H. reflexivity.
    - rewrite H. destruct (decoratorKey ls); reflexivity.
    - rewrite Hk, Hd, Hc. reflexivity. }
  split; [exact R|].
  intros out Hls Hout.
  destruct (renderChildren_nth _ _ Hout Hls) as (c & Hc & Hn).
  congruence.
Qed.

(** C7: the isEditing flag given to every leaf is the conjunction of the
    selection having focus, the selection being collapsed and the start
    key of the selection being the key of the block, read from the props
    of the render at hand. *)
Theorem leaf_isEditing_from_selection props ii ls jj leaf :
  nth_error (obj (tree props)) ii = Some ls ->
  nth_error (leaves ls) jj = Some leaf ->
  exists lp,
    nth_error (renderLeaves props ii ls) jj = Some lp
    /\ lp_isEditing lp =
       (SelectionState.hasFocus (selection props)
        && SelectionState.isCollapsed (selection props)
        && String.eqb (SelectionState.getStartKey (selection props))
             (ContentBlock.key (obj (block props))))
    /\ (forall out,
          _renderChildren getDirection getHTMLDirIfDifferent props = Some out ->
          exists c, nth_error out ii = Some c
                    /\ nth_error (childLeaves c) jj = Some lp).
Proof.
  intros Hls Hleaf.
  destruct (renderLeaves_nth props ii ls jj Hleaf) as (lp & Hn & Hed & _).
  exists lp. split; [exact Hn|]. split; [exact Hed|].
  intros out Hout.
  destruct (renderChildren_nth _ _ Hout Hls) as (c & Hc & Hnc).
  exists c. split; [exact Hnc|].
  rewrite (renderLeafSet_leaves _ _ _ Hc). exact Hn.
Qed.

(** C8, as the code has it: the isEmpty flag given to every leaf is true
    exactly when the text of the block has length zero and the block is
    not read-only. *)
Theorem leaf_isEmpty_unless_readOnly props ii ls jj leaf :
  nth_error (obj (tree props)) ii = Some ls ->
  nth_error (leaves ls) jj = Some leaf ->
  exists lp,
    nth_error (renderLeaves props ii ls) jj = Some lp
    /\ (lp_isEmpty lp = true <->
        String.length (ContentBlock.text (obj (block props))) = 0%nat
        /\ readOnly props = false)
    /\ (forall out,
          _renderChildren getDirection getHTMLDirIfDifferent props = Some out ->
          exists c, nth_error out ii = Some c
                    /\ nth_error (childLeaves c) jj = Some lp).
Proof.
  intros Hls Hleaf.
  destruct (renderLeaves_nth props ii ls jj Hleaf) as (lp & Hn & _ & Hem).
  exists lp. split; [exact Hn|]. split.
  - rewrite Hem, andb_true_iff, Z.eqb_eq, negb_true_iff. split.
    + intros [L R]. split; [lia | exact R].
    + intros [L R]. split; [lia | exact R].
  - intros out Hout.
    destruct (renderChildren_nth _ _ Hout Hls) as (c & Hc & Hnc).
    exists c. split; [exact Hnc|].
    rewrite (renderLeafSet_leaves _ _ _ Hc). exact Hn.
Qed.

(** C10: on mount the block writes the scroll position only when the
    selection has focus, ends in this block, and the bottom of the block
    lies strictly below the visible bottom of the scroll parent (of the
    viewport when the window scrolls).  It then writes once: the vertical
    position it read plus the overshoot plus the buffer of 10, which is
    further down; the horizontal position of the window is kept.  In every
    other case it writes nothing. *)
Theorem mount_scrolls_down_or_not_at_all props dom :
  let mustScroll :=
    SelectionState.hasFocus (selection props) = true
    /\ SelectionState.getEndKey (selection props)
       = ContentBlock.key (obj (block props))
    /\ overshoot dom > 0 in
  (mustScroll ->
     exists cmd,
       componentDidMount props dom = [cmd]
       /\ commandTop cmd = currentTop dom + overshoot dom + 10
       /\ commandTop cmd > currentTop dom
       /\ cmd = (if Nat.eqb (scrollParent dom) window
                 then WindowScrollTo (fst (scrollPosition dom)) (commandTop cmd)
                 else ScrollSetTop (scrollParent dom) (commandTop cmd)))
  /\ (~ mustScroll -> componentDidMount props dom = []).
Proof.
  unfold componentDidMount, overshoot, currentTop, SCROLL_BUFFER,
    SelectionState.getHasFocus, ContentBlock.getKey.
  cbv zeta.
  destruct (SelectionState.hasFocus (selection props)) eqn:F; cbn [negb orb].
  - destruct (String.eqb_spec (SelectionState.getEndKey (selection props))
                (ContentBlock.key (obj (block props)))) as [K|K]; cbn [negb].
    + destruct (Nat.eqb (scrollParent dom) window).
      * destruct (Z.gtb_spec (fst (nodePosition dom) + snd (nodePosition dom)
                              - viewportHeight dom) 0) as [G|G]; split.
        -- intros _. eexists. split; [reflexivity|]. cbn. repeat split; lia.
        -- intros N. exfalso. apply N. repeat split; trivial; lia.
        -- intros (_ & _ & O). lia.
        -- reflexivity.
      * destruct (Z.gtb_spec (blockOffsetHeight dom + blockOffsetTop dom
                              - (parentOffsetHeight dom
                                 + snd (scrollPosition dom))) 0) as [G|G]; split.
        -- intros _. eexists. split; [reflexivity|]. cbn. repeat split; lia.
        -- intros N. exfalso. apply N. repeat split; trivial; lia.
        -- intros (_ & _ & O). lia.
        -- reflexivity.
    + split; [intros (_ & E & _); contradiction | reflexivity].
  - split; [intros (E & _); discriminate | reflexivity].
Qed.

End BlockRenderer.

(** ** The block renderer on concrete documents *)

Section BlockScenarios.

Import DraftEditorBlock.
Import Sample.

Lemma undecorated_leaf_set_is_ungrouped_witness :
  let props := Sample.props Sample.para caret false in
  let ls := mkLeafSet 0 3 None [mkLeaf 0 3] in
  decoratorKey ls = None
  /\ renderLeafSet ltr noDir props ls 0 = Some (Ungrouped (renderLeaves props 0 ls)).
Proof.
  intros props ls. split; [reflexivity|].
  exact (proj1 (undecorated_leaf_set_is_ungrouped ltr noDir props ls 0
                  (or_introl eq_refl))).
Defined.

Lemma leaf_isEditing_from_selection_witness :
  let props := Sample.props Sample.blank caret false in
  let ls := mkLeafSet 0 0 None [mkLeaf 0 0] in
  nth_error (obj (tree props)) 0 = Some ls
  /\ nth_error (leaves ls) 0 = Some (mkLeaf 0 0)
  /\ exists lp, nth_error (renderLeaves props 0 ls) 0 = Some lp
                /\ lp_isEditing lp = true.
Proof.
  intros props ls. split; [reflexivity|]. split; [reflexivity|].
  destruct (leaf_isEditing_from_selection ltr noDir props 0 0
              (ls := ls) (leaf := mkLeaf 0 0) eq_refl eq_refl)
    as (lp & Hn & Hed & _).
  exists lp. split; [exact Hn|]. rewrite Hed. reflexivity.
Defined.

(** C8 as stated fails: the leaf of an empty block of a read-only editor
    is given isEmpty = false. *)
Lemma empty_readOnly_block_leaf_not_isEmpty :
  let props := Sample.props Sample.blank caret true in
  String.length (ContentBlock.text (obj (block props))) = 0%nat
  /\ option_map (map (fun c => map lp_isEmpty (childLeaves c)))
       (_renderChildren ltr noDir props) = Some [[false]].
Proof. cbv. split; reflexivity. Qed.

Lemma leaf_isEmpty_unless_readOnly_witness :
  let props := Sample.props Sample.blank caret false in
  let ls := mkLeafSet 0 0 None [mkLeaf 0 0] in
  nth_error (obj (tree props)) 0 = Some ls
  /\ nth_error (leaves ls) 0 = Some (mkLeaf 0 0)
  /\ exists lp, nth_error (renderLeaves props 0 ls) 0 = Some lp
                /\ lp_isEmpty lp = true.
Proof.
  intros props ls. split; [reflexivity|]. split; [reflexivity|].
  destruct (leaf_isEmpty_unless_readOnly ltr noDir props 0 0
              (ls := ls) (leaf := mkLeaf 0 0) eq_refl eq_refl)
    as (lp & Hn & Hem & _).
  exists lp. split; [exact Hn|]. apply Hem. split; reflexivity.
Defined.

Lemma mount_scrolls_down_or_not_at_all_witness :
  let props := Sample.props Sample.blank caret false in
  ( SelectionState.hasFocus (selection props) = true
    /\ SelectionState.getEndKey (selection props)
       = ContentBlock.key (obj (block props))
    /\ overshoot Sample.windowLayout > 0 )
  /\ componentDidMount props Sample.windowLayout = [WindowScrollTo 0 240].
Proof.
  intros props.
  assert (H : SelectionState.hasFocus (selection props) = true
              /\ SelectionState.getEndKey (selection props)
                 = ContentBlock.key (obj (block props))
              /\ overshoot Sample.windowLayout > 0)
    by (repeat split).
  split; [exact H|].
  destruct (proj1 (mount_scrolls_down_or_not_at_all props Sample.windowLayout) H)
    as (cmd & Hc & Htop & _ & Hcmd).
  rewrite Hc, Hcmd, Htop. reflexivity.
Defined.

End BlockScenarios.

(** ** Further properties of the cut handler *)

Section CutHandlerFurther.

Context {pipeline : MutationPipeline}.

Lemma execState_seq (c1 c2 : M unit) w :
  execState (c1 ;; c2) w = execState c2 (execState c1 w).
Proof.
  unfold execState. cbn. destruct (runState c1 w) as [[] w']. reflexivity.
Qed.

Lemma execState_ret (w : World) : execState (ret tt : M unit) w = w.
Proof. reflexivity. Qed.

Lemma runTimers_app ts1 ts2 w :
  execState (runTimers (ts1 ++ ts2)) w =
  execState (runTimers ts2) (execState (runTimers ts1) w).
Proof.
  revert w. induction ts1 as [|t rest IH]; intros w.
  - reflexivity.
  - cbn [app runTimers]. rewrite !execState_seq. apply IH.
Qed.

(** Callbacks leave the clipboard, the event, the host and the pending
    list alone, and put four calls each on the trace. *)
Lemma runTimers_frame ts w :
  let w' := execState (runTimers ts) w in
  clipboard w' = clipboard w
  /\ defaultPrevented w' = defaultPrevented w
  /\ dom w' = dom w
  /\ timers w' = timers w
  /\ List.length (trace w') = (List.length (trace w) + 4 * List.length ts)%nat.
Proof.
  revert w. induction ts as [|[x y es] rest IH]; intros w.
  - cbn. repeat split. lia.
  - cbn [runTimers]. cbv zeta. rewrite execState_seq, runTimer_run.
    destruct (IH (mkWorld (committed es) (clipboard w) false None
                    (defaultPrevented w) (dom w) (timers w)
                    (trace w ++ [RestoreEditorDOM x y; RemoveRenderGuard;
                                 ExitCurrentMode; Update (committed es)])))
      as (C & P & D & T & L).
    cbv zeta in *. unfold committed in *.
    rewrite C, P, D, T, L. cbn [clipboard defaultPrevented dom timers trace].
    repeat split. rewrite length_app. cbn [List.length]. lia.
Qed.


(** X2: a cut on a selection followed by the next turn, with no other
    callback pending, ends unguarded and out of cut mode with nothing
    pending; the clipboard holds the fragment of the state the event
    found and the committed state is made from that same state, also
    when the owner replaced the editor state in between. *)
Theorem cut_then_next_turn e w es' :
  SelectionState.isCollapsed (EditorState.getSelection (editorState w)) = false ->
  timers w = [] ->
  let es := editorState w in
  let scrollParent := scrollParentOf (dom w) (target e) in
  let xy := scrollPositionOf (dom w) scrollParent in
  let fragment := getFragmentFromSelection es in
  execState nextTurn (replaceEditorState es' (execState (editOnCut e) w)) =
  mkWorld (committed es) (Some fragment) false None (defaultPrevented w)
    (dom w) []
    (trace w ++ [GetScrollParent (target e);
                 GetScrollPosition scrollParent;
                 GetFragmentFromSelection es;
                 SetClipboard fragment;
                 SetRenderGuard;
                 SetMode "cut";
                 SetTimeout (CutRecovery (fst xy) (snd xy) es) 0;
                 RestoreEditorDOM (fst xy) (snd xy);
                 RemoveRenderGuard;
                 ExitCurrentMode;
                 Update (committed es)]).
Proof.
  intros C T es scrollParent xy fragment.
  rewrite (editOnCut_run_selected e w C). unfold replaceEditorState.
  cbn [timers editorState clipboard renderGuard mode defaultPrevented dom trace].
  rewrite T. cbn [app].
  erewrite nextTurn_single by reflexivity.
  rewrite runTimer_run.
  cbn [timers editorState clipboard renderGuard mode defaultPrevented dom trace].
  rewrite <- app_assoc. reflexivity.
Qed.

(** X3: a turn runs every pending callback.  When at least one is
    pending the editor ends unguarded, out of cut mode, with nothing
    pending, and the state committed is that of the callback scheduled
    last; clipboard and event are untouched and each callback has put its
    four calls on the trace. *)
Theorem next_turn_last_callback_wins w ts x y es :
  timers w = ts ++ [CutRecovery x y es] ->
  let w' := execState nextTurn w in
  editorState w' = committed es
  /\ renderGuard w' = false
  /\ mode w' = None
  /\ timers w' = []
  /\ clipboard w' = clipboard w
  /\ defaultPrevented w' = defaultPrevented w
  /\ List.length (trace w')
     = (List.length (trace w) + 4 * List.length (timers w))%nat.
Proof.
  intros T w'. subst w'.
  assert (N : execState nextTurn w =
              execState (runTimers (timers w))
                (mkWorld (editorState w) (clipboard w) (renderGuard w) (mode w)
                   (defaultPrevented w) (dom w) [] (trace w))).
  { unfold nextTurn, execState. cbn.
    destruct (runState (runTimers (timers w)) _) as [[] w1]. reflexivity. }
  rewrite N, T, runTimers_app. cbn [runTimers].
  rewrite execState_seq, runTimer_run, execState_ret.
  destruct (runTimers_frame ts
              (mkWorld (editorState w) (clipboard w) (renderGuard w) (mode w)
                 (defaultPrevented w) (dom w) [] (trace w)))
    as (C & P & D & Tm & L).
  cbv zeta in *.
  cbn [editorState clipboard renderGuard mode defaultPrevented dom timers trace]
    in *.
  rewrite C, P, Tm. repeat split.
  rewrite !length_app, L. cbn [List.length]. lia.
Qed.

(** X4: [selectCanNotUndo] is set exactly when a block comes before the
    start key, the selection starts and ends in one block at different
    offsets, and that block is atomic; in every other case the removal is
    pushed on the editor state as it is, without forcing the selection. *)
Theorem selectCanNotUndo_iff es :
  let content := EditorState.currentContent es in
  let sel := EditorState.selection es in
  let startKey := SelectionState.getStartKey sel in
  let flagged :=
    (exists prev, ContentState.getBlockBefore content startKey = Some prev)
    /\ startKey = SelectionState.getEndKey sel
    /\ SelectionState.getStartOffset sel <> SelectionState.getEndOffset sel
    /\ (exists b, ContentState.getBlockForKey content startKey = Some b
                  /\ ContentBlock.type b = "atomic") in
  (selectCanNotUndo es = true <-> flagged)
  /\ (~ flagged ->
      removeFragment es =
      push es (removeRange content sel "forward") "remove-range").
Proof.
  intros content sel startKey flagged.
  assert (I : selectCanNotUndo es = true <-> flagged).
  { unfold flagged, selectCanNotUndo, EditorState.getCurrentContent,
      EditorState.getSelection, ContentBlock.getType.
    fold content sel startKey.
    destruct (ContentState.getBlockBefore content startKey) as [prev|].
    - rewrite !andb_true_iff, negb_true_iff, Z.eqb_neq, String.eqb_eq.
      split.
      + intros [[K O] B].
        destruct (ContentState.getBlockForKey content startKey) as [b|];
          [|discriminate].
        apply String.eqb_eq in B. eauto 8.
      + intros (_ & K & O & b & Hb & Ty). rewrite Hb.
        repeat split; trivial. apply String.eqb_eq. exact Ty.
    - split; [discriminate|]. intros ([prev P] & _). discriminate. }
  split; [exact I|].
  intros N. unfold removeFragment.
  destruct (selectCanNotUndo es); [|reflexivity].
  exfalso. apply N, I. reflexivity.
Qed.

End CutHandlerFurther.

(** ** Further properties of the block renderer *)

Section BlockRendererFurther.

Import DraftEditorBlock.

Variable getDirection : string -> BidiDirection.
Variable getHTMLDirIfDifferent : BidiDirection -> BidiDirection -> option string.

(** *** Substrings *)

Lemma substring_none n s : substring n 0 s = EmptyString.
Proof.
  revert n. induction s as [|c s IH]; intros [|n]; cbn; trivial.
Qed.

Lemma substring_whole s : substring 0 (String.length s) s = s.
Proof. induction s as [|c s IH]; cbn; [|rewrite IH]; reflexivity. Qed.

Lemma substring_split s a n m :
  String.append (substring a n s) (substring (a + n) m s)
  = substring a (n + m) s.
Proof.
  revert a n. induction s as [|c s IH]; intros a n.
  - destruct a, n, m; reflexivity.
  - destruct a as [|a].
    + destruct n as [|n]; cbn [Nat.add].
      * reflexivity.
      * cbn. f_equal. apply (IH 0%nat n).
    + cbn [Nat.add substring]. apply IH.
Qed.

Lemma slice_inside s a b :
  0 <= a -> a <= b -> b <= Z.of_nat (String.length s) ->
  slice s a b = substring (Z.to_nat a) (Z.to_nat b - Z.to_nat a) s.
Proof.
  intros A B C. unfold slice, slice_index.
  destruct (Z.ltb_spec a 0); [lia|]. destruct (Z.ltb_spec b 0); [lia|].
  rewrite !Z.min_l by lia. f_equal. lia.
Qed.

(** *** Lists *)

Lemma In_mapi {A B} (f : A -> nat -> B) l b :
  In b (mapi f l) -> exists a j, nth_error l j = Some a /\ b = f a j.
Proof.
  intros H. apply In_nth_error in H as [j Hj].
  rewrite mapi_nth_error in Hj.
  destruct (nth_error l j) as [a|] eqn:E; [|discriminate].
  injection Hj as <-. exists a, j. split; [exact E | reflexivity].
Qed.

Lemma map_mapi_from {A B C} (g : B -> C) (h : A -> C) (f : A -> nat -> B) l i :
  (forall a j, g (f a j) = h a) -> map g (mapi_from i f l) = map h l.
Proof.
  intros E. revert i. induction l as [|a rest IH]; intros i; cbn.
  - reflexivity.
  - rewrite E, IH. reflexivity.
Qed.

Lemma length_mapi_from {A B} (f : A -> nat -> B) l i :
  List.length (mapi_from i f l) = List.length l.
Proof. revert i. induction l; intros i; cbn; auto. Qed.

Lemma sequence_none {A} (l : list (option A)) :
  sequence l = None <-> In None l.
Proof.
  induction l as [|[a|] rest IH]; cbn.
  - split; [discriminate | contradiction].
  - destruct (sequence rest).
    + split; [discriminate|]. intros [H|H]; [discriminate|].
      apply IH in H. discriminate.
    + split; [|reflexivity]. intros _. right. apply IH. reflexivity.
  - split; auto.
Qed.

(** The texts of the leaves of a leaf set do not depend on its place. *)
Lemma renderLeaves_texts props ii ls :
  map lp_text (renderLeaves props ii ls) =
  map (fun leaf => slice (ContentBlock.text (obj (block props)))
                     (leaf_start leaf) (leaf_end leaf)) (leaves ls).
Proof.
  unfold renderLeaves, mapi. apply map_mapi_from. reflexivity.
Qed.

(** Chained leaves inside the text show the text between their ends. *)
Lemma chained_texts s l from to :
  0 <= from -> chained from l = Some to -> to <= Z.of_nat (String.length s) ->
  from <= to
  /\ joinText (map (fun leaf => slice s (leaf_start leaf) (leaf_end leaf)) l)
     = slice s from to.
Proof.
  revert from. induction l as [|leaf rest IH]; intros from F C T; cbn in C.
  - injection C as <-. split; [lia|]. cbn.
    rewrite slice_inside by lia. rewrite Nat.sub_diag, substring_none.
    reflexivity.
  - destruct (Z.eqb_spec (leaf_start leaf) from) as [S|]; [|discriminate].
    destruct (Z.leb_spec from (leaf_end leaf)) as [E|]; [|discriminate].
    cbn in C. destruct (IH (leaf_end leaf) ltac:(lia) C T) as [L J].
    split; [lia|]. cbn [map joinText fold_right]. fold (joinText
      (map (fun leaf0 => slice s (leaf_start leaf0) (leaf_end leaf0)) rest)).
    rewrite J, S, !slice_inside by lia.
    replace (Z.to_nat (leaf_end leaf)) with
      (Z.to_nat from + (Z.to_nat (leaf_end leaf) - Z.to_nat from))%nat at 2 by lia.
    rewrite substring_split. f_equal. lia.
Qed.

Lemma hd_error_snoc {A} (l : list A) a b :
  hd_error ((l ++ [b]) ++ [a]) = hd_error (l ++ [b]).
Proof. destruct l; reflexivity. Qed.

(** Chained leaves start at [from] and the last of them ends at [to]. *)
Lemma chained_ends l from to first last :
  chained from l = Some to ->
  hd_error l = Some first -> hd_error (rev l) = Some last ->
  leaf_start first = from /\ leaf_end last = to.
Proof.
  intros C Hf Hl. split.
  - destruct l as [|a rest]; [discriminate|]. injection Hf as ->. cbn in C.
    destruct (Z.eqb_spec (leaf_start first) from); [assumption|discriminate].
  - clear Hf first. revert from C Hl.
    induction l as [|a rest IH]; intros from C Hl; [discriminate|].
    cbn in C.
    destruct ((leaf_start a =? from) && (from <=? leaf_end a))%bool;
      [|discriminate].
    destruct rest as [|b rest'].
    + cbn in *. injection Hl as <-. congruence.
    + apply (IH (leaf_end a) C).
      cbn [rev] in *. rewrite hd_error_snoc in Hl. exact Hl.
Qed.

(** The leaves of the children of a render are those of the inner map,
    leaf set by leaf set. *)
Lemma sequence_children props t i out :
  sequence (mapi_from i (renderLeafSet getDirection getHTMLDirIfDifferent props) t)
    = Some out ->
  map childLeaves out = mapi_from i (fun ls ii => renderLeaves props ii ls) t.
Proof.
  revert i out. induction t as [|ls rest IH]; intros i out H; cbn in H.
  - injection H as <-. reflexivity.
  - destruct (renderLeafSet _ _ props ls i) as [c|] eqn:R; [|discriminate].
    destruct (sequence _) as [r|] eqn:Q; [|discriminate].
    injection H as <-. cbn. rewrite (renderLeafSet_leaves _ _ _ _ _ R).
    f_equal. apply IH. exact Q.
Qed.

(** X5: props the block only hands down do not make it render again.
    When the block and tree references, the key, the selection, the text
    alignment, the read-only flag and the direction are those of the
    props before, whatever became of the content state, the decorator
    and the custom styles, the block renders again exactly when it is on
    an edge of the selection and the selection is forced. *)
Theorem shouldComponentUpdate_ignores_handed_down_props (prev next : Props) :
  addr (block prev) = addr (block next) ->
  addr (tree prev) = addr (tree next) ->
  ContentBlock.key (obj (block prev)) = ContentBlock.key (obj (block next)) ->
  selection prev = selection next ->
  textAlign prev = textAlign next ->
  readOnly prev = readOnly next ->
  direction prev = direction next ->
  shouldComponentUpdate prev next =
  (isBlockOnSelectionEdge (selection next)
     (ContentBlock.key (obj (block next)))
   && forceSelection next)%bool.
Proof.
  intros B T K S A R D.
  unfold shouldComponentUpdate, updateTailCR, same_ref, ContentBlock.getKey.
  rewrite B, T, K, S, A, R, D.
  rewrite String.eqb_refl, !Nat.eqb_refl, !Bool.eqb_reflx.
  destruct (direction next); reflexivity.
Qed.

(** X6: a block the selection does not touch is left alone.  With the
    same block and tree references and the same flags, a block that is
    not the start of the previous selection and on neither edge of the
    next one does not render again, forced selection or not. *)
Theorem shouldComponentUpdate_false_away_from_selection (prev next : Props) :
  addr (block prev) = addr (block next) ->
  addr (tree prev) = addr (tree next) ->
  textAlign prev = textAlign next ->
  readOnly prev = readOnly next ->
  direction prev = direction next ->
  SelectionState.getStartKey (selection prev)
    <> ContentBlock.key (obj (block prev)) ->
  SelectionState.anchorKey (selection next)
    <> ContentBlock.key (obj (block next)) ->
  SelectionState.focusKey (selection next)
    <> ContentBlock.key (obj (block next)) ->
  shouldComponentUpdate prev next = false.
Proof.
  intros B T A R D P An Fo.
  unfold shouldComponentUpdate, updateTailCR, same_ref, isBlockOnSelectionEdge,
    ContentBlock.getKey, SelectionState.getAnchorKey, SelectionState.getFocusKey.
  rewrite B, T, A, R, D.
  rewrite String.eqb_refl, !Nat.eqb_refl, Bool.eqb_reflx.
  apply String.eqb_neq in P, An, Fo. rewrite P, An, Fo.
  assert (St : String.eqb (SelectionState.getStartKey (selection next))
                 (ContentBlock.key (obj (block next))) = false).
  { unfold SelectionState.getStartKey.
    destruct (SelectionState.isBackward (selection next)); assumption. }
  rewrite St, !andb_false_r.
  destruct (direction next); reflexivity.
Qed.

(** X7: a leaf told it is being edited is always given the selection:
    isEditing implies that the block is on an edge of the selection. *)
Theorem editing_leaf_is_given_selection props ii ls lp :
  In lp (renderLeaves props ii ls) ->
  lp_isEditing lp = true ->
  lp_selection lp = Some (selection props).
Proof.
  intros H E. unfold renderLeaves in H.
  apply In_mapi in H as (leaf & jj & _ & ->). cbn in *.
  apply andb_true_iff in E as [E K]. apply andb_true_iff in E as [_ C].
  unfold isBlockOnSelectionEdge, SelectionState.getAnchorKey,
    SelectionState.getFocusKey, SelectionState.getStartKey,
    ContentBlock.getKey in *.
  unfold SelectionState.isCollapsed in C.
  apply andb_true_iff in C as [C _]. apply String.eqb_eq in C.
  destruct (SelectionState.isBackward (selection props)).
  - rewrite K, orb_true_r. reflexivity.
  - rewrite K. reflexivity.
Qed.

(** X8: the leaf marked last is the final leaf of the final leaf set and
    no other. *)
Theorem isLast_marks_final_leaf props ii ls jj lp :
  nth_error (obj (tree props)) ii = Some ls ->
  nth_error (renderLeaves props ii ls) jj = Some lp ->
  (lp_isLast lp = true <->
   S ii = List.length (obj (tree props)) /\ S jj = List.length (leaves ls)).
Proof.
  intros _ H. unfold renderLeaves in H. rewrite mapi_nth_error in H.
  destruct (nth_error (leaves ls) jj) as [leaf|]; [|discriminate].
  injection H as <-. cbn.
  rewrite andb_true_iff, !Z.eqb_eq. lia.
Qed.

(** X9: when the leaves of the tree follow one another from the start of
    the text to its end, the leaves of the children, read in order, show
    the text of the block, all of it and once. *)
Theorem children_show_the_whole_text props out :
  _renderChildren getDirection getHTMLDirIfDifferent props = Some out ->
  chainedSets 0 (obj (tree props))
    = Some (Z.of_nat (String.length (ContentBlock.text (obj (block props))))) ->
  shownText out = ContentBlock.text (obj (block props)).
Proof.
  unfold _renderChildren, mapi, shownText. intros R C.
  apply sequence_children in R.
  rewrite <- (map_map childLeaves (fun l => joinText (map lp_text l))), R.
  set (s := ContentBlock.text (obj (block props))) in *.
  rewrite (map_mapi_from (fun l => joinText (map lp_text l))
             (fun ls => joinText
                          (map (fun leaf => slice s (leaf_start leaf)
                                              (leaf_end leaf)) (leaves ls))))
    by (intros; rewrite renderLeaves_texts; reflexivity).
  assert (G : forall t from to,
             0 <= from -> chainedSets from t = Some to ->
             to <= Z.of_nat (String.length s) ->
             from <= to
             /\ joinText
                  (map (fun ls => joinText
                          (map (fun leaf => slice s (leaf_start leaf)
                                              (leaf_end leaf)) (leaves ls))) t)
                = slice s from to).
  { induction t as [|ls rest IH]; intros from to F Ch T; cbn in Ch.
    - injection Ch as <-. split; [lia|]. cbn.
      rewrite slice_inside by lia. rewrite Nat.sub_diag, substring_none.
      reflexivity.
    - destruct (chained from (leaves ls)) as [mid|] eqn:M; [|discriminate].
      assert (T' : mid <= Z.of_nat (String.length s)).
      { clear IH M.
        enough (forall t m z, chainedSets m t = Some z -> m <= z) as Mono
          by (specialize (Mono rest mid to Ch); lia).
        induction t as [|l0 t0 IHt]; intros m z Hm; cbn in Hm.
        - injection Hm as <-. lia.
        - destruct (chained m (leaves l0)) as [m'|] eqn:Q; [|discriminate].
          apply IHt in Hm.
          enough (forall l a b, chained a l = Some b -> a <= b) as Mono'
            by (specialize (Mono' _ _ _ Q); lia).
          induction l as [|x l IHl]; intros a b Hab; cbn in Hab.
          + injection Hab as <-. lia.
          + destruct (Z.eqb_spec (leaf_start x) a); [|discriminate].
            destruct (Z.leb_spec a (leaf_end x)); [|discriminate].
            cbn in Hab. apply IHl in Hab. lia. }
      destruct (chained_texts s (leaves ls) F M T') as [L1 J1].
      destruct (IH mid to ltac:(lia) Ch T) as [L2 J2].
      split; [lia|]. cbn [map joinText fold_right].
      fold (joinText
              (map (fun ls0 => joinText
                      (map (fun leaf => slice s (leaf_start leaf)
                                          (leaf_end leaf)) (leaves ls0))) rest)).
      rewrite J1, J2, !slice_inside by lia.
      replace (Z.to_nat mid) with
        (Z.to_nat from + (Z.to_nat mid - Z.to_nat from))%nat at 2 by lia.
      rewrite substring_split. f_equal. lia. }
  destruct (G (obj (tree props)) 0 _ ltac:(lia) C ltac:(lia)) as [_ J].
  rewrite J, slice_inside by lia.
  cbn [Z.to_nat]. rewrite Nat2Z.id, Nat.sub_0_r. apply substring_whole.
Qed.

(** X10: the text handed to a decorator component is the text of its
    children, joined, when the leaves of the leaf set follow one another
    inside the text. *)
Theorem decoratedText_is_text_of_children props ls ii c dp children from to :
  renderLeafSet getDirection getHTMLDirIfDifferent props ls ii
    = Some (Decorated c dp children) ->
  chained from (leaves ls) = Some to ->
  0 <= from ->
  to <= Z.of_nat (String.length (ContentBlock.text (obj (block props)))) ->
  dp_decoratedText dp = joinText (map lp_text children).
Proof.
  intros R C F T.
  assert (Ch : children = renderLeaves props ii ls)
    by exact (renderLeafSet_leaves _ _ _ _ _ R).
  unfold renderLeafSet in R.
  destruct (decoratorKey ls); [|discriminate].
  destruct (decorator props); [|discriminate].
  destruct (getComponentForKey _ _); [|discriminate].
  destruct (hd_error (leaves ls)) as [first|] eqn:Hf; [|discriminate].
  destruct (hd_error (rev (leaves ls))) as [last|] eqn:Hl; [|discriminate].
  injection R as _ <- _. cbn [dp_decoratedText].
  destruct (@chained_ends _ _ _ _ _ C Hf Hl) as [-> ->].
  rewrite Ch, renderLeaves_texts.
  symmetry. apply (chained_texts _ _ F C T).
Qed.

(** X11: the render throws exactly when the tree holds a leaf set
    without leaves whose decorator key has a component in the decorator
    of the props. *)
Theorem renderChildren_throws_iff props :
  _renderChildren getDirection getHTMLDirIfDifferent props = None <->
  exists ii ls k d c,
    nth_error (obj (tree props)) ii = Some ls
    /\ leaves ls = []
    /\ decoratorKey ls = Some k
    /\ decorator props = Some d
    /\ getComponentForKey d k = Some c.
Proof.
  unfold _renderChildren. rewrite sequence_none. split.
  - intros H. apply In_mapi in H as (ls & ii & N & R).
    exists ii, ls. symmetry in R. unfold renderLeafSet in R.
    destruct (decoratorKey ls) as [k|] eqn:K; [|discriminate].
    destruct (decorator props) as [d|] eqn:D; [|discriminate].
    destruct (getComponentForKey d k) as [c|] eqn:G; [|discriminate].
    exists k, d, c. repeat split; trivial.
    destruct (leaves ls) as [|l0 rest]; [reflexivity|].
    cbn [hd_error] in R.
    destruct (rev (l0 :: rest)) eqn:Rv; [|discriminate].
    apply (f_equal (@List.length _)) in Rv. rewrite length_rev in Rv.
    discriminate.
  - intros (ii & ls & k & d & c & N & L & K & D & G).
    assert (N' := mapi_nth_error
                    (renderLeafSet getDirection getHTMLDirIfDifferent props)
                    (obj (tree props)) ii).
    rewrite N in N'. cbn in N'.
    apply nth_error_In with (n := ii). rewrite N'. f_equal.
    unfold renderLeafSet. rewrite K, D, G, L. reflexivity.
Qed.

(** X12: a leaf set is wrapped in a decorator exactly when it has a
    decorator key, the props have a decorator, the decorator has a
    component for the key and the leaf set has a leaf.  The wrapper is
    that component, with the props the decorator has for the key and the
    entity at the start of the leaf set, and its children are the leaves
    the leaf set would show ungrouped. *)
Theorem decorated_iff props ls ii c :
  let wrapped k d :=
    decoratorKey ls = Some k
    /\ decorator props = Some d
    /\ getComponentForKey d k = Some c
    /\ leaves ls <> [] in
  ((exists dp,
      renderLeafSet getDirection getHTMLDirIfDifferent props ls ii
      = Some (Decorated c dp (renderLeaves props ii ls)))
   <-> exists k d, wrapped k d)
  /\ (forall dp children,
        renderLeafSet getDirection getHTMLDirIfDifferent props ls ii
        = Some (Decorated c dp children) ->
        exists k d,
          wrapped k d
          /\ children = renderLeaves props ii ls
          /\ dp_decoratorProps dp = getPropsForKey d k
          /\ dp_contentState dp = contentState props
          /\ dp_entityKey dp
             = ContentBlock.getEntityAt (obj (block props)) (start ls)
          /\ dp_key dp = encode (ContentBlock.key (obj (block props))) ii 0
          /\ dp_offsetKey dp = dp_key dp).
Proof.
  intros wrapped.
  assert (Fw : forall dp children,
             renderLeafSet getDirection getHTMLDirIfDifferent props ls ii
             = Some (Decorated c dp children) ->
             exists k d,
               wrapped k d
               /\ children = renderLeaves props ii ls
               /\ dp_decoratorProps dp = getPropsForKey d k
               /\ dp_contentState dp = contentState props
               /\ dp_entityKey dp
                  = ContentBlock.getEntityAt (obj (block props)) (start ls)
               /\ dp_key dp = encode (ContentBlock.key (obj (block props))) ii 0
               /\ dp_offsetKey dp = dp_key dp).
  { intros dp children R. unfold wrapped, renderLeafSet in *.
    destruct (decoratorKey ls) as [k|] eqn:K; [|discriminate].
    destruct (decorator props) as [d|] eqn:D; [|discriminate].
    destruct (getComponentForKey d k) as [c'|] eqn:G; [|discriminate].
    destruct (hd_error (leaves ls)) as [first|] eqn:Hf; [|discriminate].
    destruct (hd_error (rev (leaves ls))) as [last|] eqn:Hl; [|discriminate].
    injection R as <- <- <-. exists k, d. cbn.
    assert (Ne : leaves ls <> [])
      by (intros E; rewrite E in Hf; discriminate).
    auto 12. }
  split; [split|exact Fw].
  - intros [dp R]. destruct (Fw _ _ R) as (k & d & W & _). eauto.
  - intros (k & d & K & D & G & Ne). unfold renderLeafSet.
    rewrite K, D, G.
    destruct (leaves ls) as [|l0 rest] eqn:E; [congruence|].
    cbn [hd_error]. destruct (rev (l0 :: rest)) eqn:Rv.
    + apply (f_equal (@List.length _)) in Rv. rewrite length_rev in Rv.
      discriminate.
    + eexists. reflexivity.
Qed.

(** X13: a render that returns gives one child per leaf set of the tree,
    in order, and each child has one leaf per leaf of its leaf set. *)
Theorem children_follow_the_tree props out :
  _renderChildren getDirection getHTMLDirIfDifferent props = Some out ->
  map (fun c => List.length (childLeaves c)) out
  = map (fun ls => List.length (leaves ls)) (obj (tree props)).
Proof.
  unfold _renderChildren, mapi. intros R. apply sequence_children in R.
  rewrite <- (map_map childLeaves (@List.length _)), R.
  apply map_mapi_from. intros ls ii. unfold renderLeaves, mapi.
  apply length_mapi_from.
Qed.

(** X14: on mount the block writes the scroll position only if it is on
    an edge of the selection. *)
Theorem mount_scrolls_only_on_selection_edge props dom :
  componentDidMount props dom <> [] ->
  isBlockOnSelectionEdge (selection props)
    (ContentBlock.key (obj (block props))) = true.
Proof.
  unfold componentDidMount, isBlockOnSelectionEdge, SelectionState.getEndKey,
    SelectionState.getAnchorKey, SelectionState.getFocusKey,
    SelectionState.getHasFocus, ContentBlock.getKey.
  intros H.
  destruct (SelectionState.hasFocus (selection props)); cbn [negb orb] in H;
    [|congruence].
  destruct (SelectionState.isBackward (selection props));
    match type of H with
    | context [String.eqb ?a ?b] => destruct (String.eqb a b) eqn:E
    end; cbn [negb] in H; try congruence.
  - reflexivity.
  - apply orb_true_r.
Qed.

End BlockRendererFurther.

(** ** The further properties on concrete documents *)

Section FurtherCutScenarios.

#[local] Existing Instance SpecPipeline.pipeline.

Lemma cut_then_next_turn_witness :
  let w := Sample.world Sample.abc_1_3 in
  let w' := execState nextTurn
              (replaceEditorState Sample.abc_caret
                 (execState (editOnCut Sample.cutEvent) w)) in
  SelectionState.isCollapsed (EditorState.getSelection (editorState w)) = false
  /\ timers w = []
  /\ editorState w' = committed Sample.abc_1_3
  /\ renderGuard w' = false /\ mode w' = None /\ timers w' = [].
Proof.
  intros w w'. split; [reflexivity|]. split; [reflexivity|]. subst w'.
  rewrite (cut_then_next_turn Sample.cutEvent w Sample.abc_caret
             eq_refl eq_refl).
  repeat split.
Defined.

Lemma next_turn_last_callback_wins_witness :
  let t1 := CutRecovery 0 0 Sample.image_second in
  let t2 := CutRecovery 0 120 Sample.abc_1_3 in
  let w := mkWorld Sample.abc_caret None true (Some "cut") false Sample.dom
             [t1; t2] [] in
  timers w = [t1] ++ [t2]
  /\ editorState (execState nextTurn w) = committed Sample.abc_1_3
  /\ List.length (trace (execState nextTurn w)) = 8%nat.
Proof.
  intros t1 t2 w. split; [reflexivity|].
  destruct (next_turn_last_callback_wins w [t1] 0 120 Sample.abc_1_3 eq_refl)
    as (E & _ & _ & _ & _ & _ & L).
  split; [exact E | exact L].
Defined.

Lemma selectCanNotUndo_iff_witness :
  let es := Sample.image_first in
  ContentState.getBlockBefore (EditorState.currentContent es)
    (SelectionState.getStartKey (EditorState.selection es)) = None
  /\ removeFragment es =
     push es
       (removeRange (EditorState.currentContent es) (EditorState.selection es)
          "forward")
       "remove-range".
Proof.
  intros es. split; [reflexivity|].
  apply (proj2 (selectCanNotUndo_iff es)).
  intros ([prev P] & _). discriminate P.
Defined.

End FurtherCutScenarios.

Section FurtherBlockScenarios.

Import DraftEditorBlock.

Lemma shouldComponentUpdate_ignores_handed_down_props_witness :
  let prev := Linked.props Linked.tree Linked.caretHere in
  let next :=
    mkProps (Sample.content [Sample.para] Linked.elsewhere) (mkRef 1 Linked.hello)
      3%nat 4%nat (mkRef 2 Linked.brokenTree) Linked.caretHere None false LTR
      false "left" in
  contentState prev <> contentState next
  /\ decorator prev <> decorator next
  /\ shouldComponentUpdate prev next = false.
Proof.
  intros prev next. split; [discriminate|]. split; [discriminate|].
  rewrite (shouldComponentUpdate_ignores_handed_down_props prev next
             eq_refl eq_refl eq_refl eq_refl eq_refl eq_refl eq_refl).
  reflexivity.
Defined.

Lemma shouldComponentUpdate_false_away_from_selection_witness :
  let prev := Linked.props Linked.tree Linked.elsewhere in
  let next :=
    mkProps (Sample.content [Linked.hello] Linked.elsewhere)
      (mkRef 1 Linked.hello) 0%nat 0%nat (mkRef 2 Linked.tree)
      (Sample.sel "p8" 1 "p9" 0 false) (Some Linked.decorator) true LTR
      false "left" in
  forceSelection next = true
  /\ selection prev <> selection next
  /\ shouldComponentUpdate prev next = false.
Proof.
  intros prev next. split; [reflexivity|]. split; [discriminate|].
  apply (shouldComponentUpdate_false_away_from_selection prev next);
    first [reflexivity | discriminate].
Defined.

Lemma editing_leaf_is_given_selection_witness :
  let props := Sample.props Sample.blank Sample.caret false in
  let ls := mkLeafSet 0 0 None [mkLeaf 0 0] in
  exists lp,
    In lp (renderLeaves props 0 ls)
    /\ lp_isEditing lp = true
    /\ lp_selection lp = Some Sample.caret.
Proof.
  intros props ls. eexists. split; [left; reflexivity|].
  split; [reflexivity|].
  apply (editing_leaf_is_given_selection props 0 ls);
    [left; reflexivity | reflexivity].
Defined.

Lemma isLast_marks_final_leaf_witness :
  let props := Linked.props Linked.tree Linked.caretHere in
  exists ls lp,
    nth_error (obj (tree props)) 1 = Some ls
    /\ nth_error (renderLeaves props 1 ls) 1 = Some lp
    /\ lp_isLast lp = true.
Proof.
  intros props. eexists. eexists. split; [reflexivity|].
  split; [reflexivity|].
  apply (proj2 (isLast_marks_final_leaf props 1 1 eq_refl eq_refl)).
  split; reflexivity.
Defined.

Lemma children_show_the_whole_text_witness :
  let props := Linked.props Linked.tree Linked.caretHere in
  exists out,
    _renderChildren Sample.ltr Sample.noDir props = Some out
    /\ chainedSets 0 (obj (tree props)) = Some 11
    /\ shownText out = "hello world".
Proof.
  intros props. eexists. split; [reflexivity|]. split; [reflexivity|].
  apply (children_show_the_whole_text Sample.ltr Sample.noDir props);
    reflexivity.
Defined.

Lemma decoratedText_is_text_of_children_witness :
  let props := Linked.props Linked.tree Linked.caretHere in
  let ls := mkLeafSet 6 11 (Some "link") [mkLeaf 6 8; mkLeaf 8 11] in
  exists c dp children,
    renderLeafSet Sample.ltr Sample.noDir props ls 1
      = Some (Decorated c dp children)
    /\ chained 6 (leaves ls) = Some 11
    /\ dp_decoratedText dp = joinText (map lp_text children)
    /\ dp_decoratedText dp = "world".
Proof.
  intros props ls. eexists. eexists. eexists.
  split; [reflexivity|]. split; [reflexivity|].
  split; [|reflexivity].
  eapply (@decoratedText_is_text_of_children Sample.ltr Sample.noDir props ls
            1%nat _ _ _ 6 11);
    [reflexivity | reflexivity | discriminate | discriminate].
Defined.

Lemma renderChildren_throws_iff_witness :
  let props := Linked.props Linked.brokenTree Linked.caretHere in
  _renderChildren Sample.ltr Sample.noDir props = None.
Proof.
  intros props.
  apply (proj2 (renderChildren_throws_iff Sample.ltr Sample.noDir props)).
  exists 1%nat, (mkLeafSet 6 11 (Some "link") []), "link", Linked.decorator, 5%nat.
  repeat split.
Defined.

Lemma decorated_iff_witness :
  let props := Linked.props Linked.tree Linked.caretHere in
  let ls := mkLeafSet 6 11 (Some "link") [mkLeaf 6 8; mkLeaf 8 11] in
  exists dp,
    renderLeafSet Sample.ltr Sample.noDir props ls 1
    = Some (Decorated 5%nat dp (renderLeaves props 1 ls)).
Proof.
  intros props ls.
  apply (proj2 (proj1 (decorated_iff Sample.ltr Sample.noDir props ls 1 5%nat))).
  exists "link", Linked.decorator.
  split; [reflexivity|]. split; [reflexivity|]. split; [reflexivity|].
  discriminate.
Defined.

Lemma children_follow_the_tree_witness :
  let props := Linked.props Linked.tree Linked.caretHere in
  exists out,
    _renderChildren Sample.ltr Sample.noDir props = Some out
    /\ map (fun c => List.length (childLeaves c)) out = [1%nat; 2%nat].
Proof.
  intros props. eexists. split; [reflexivity|].
  rewrite (children_follow_the_tree Sample.ltr Sample.noDir props
             (out := _) eq_refl).
  reflexivity.
Defined.

Lemma mount_scrolls_only_on_selection_edge_witness :
  let props := Sample.props Sample.blank Sample.caret false in
  componentDidMount props Sample.windowLayout <> []
  /\ isBlockOnSelectionEdge (selection props)
       (ContentBlock.key (obj (block props))) = true.
Proof.
  intros props.
  assert (H : componentDidMount props Sample.windowLayout <> [])
    by discriminate.
  split; [exact H|].
  exact (mount_scrolls_only_on_selection_edge props Sample.windowLayout H).
Defined.

End FurtherBlockScenarios.
